(** * Teach Hub: the daily engagement and streak tracking engine

    A shallow embedding of the data-backed core of [app.py]: the nickname
    normaliser, the SQLite tables behind the teacher challenges (challenge
    catalogue, per-day completion logs, daily reflections) and the
    aggregates computed from them (streak, weekly and daily totals).

    Conventions of the embedding
    - a Python [str] is the list of its Unicode code points ([N]);
    - a [datetime.date] is its (year, month, day) triple;
    - a table is the list of its rows in rowid order: the AUTOINCREMENT
      [id] column is the position in the list (rows are never deleted),
      and the program uses it only to order results;
    - the wall clock and the database file are explicit arguments;
    - a Python call either returns a value or raises: [outcome]. *)

From Stdlib Require Import ZArith NArith Lia String Ascii List Bool.
From Stdlib Require Import PrimFloat SpecFloat FloatOps.
From stdpp Require Import base numbers list gmap.

Open Scope N_scope.

(** ** Python strings *)

Definition str := list N.

(** Decoder used only to write string literals of the source in this file:
    the bytes of a Rocq literal are the UTF-8 encoding of the Python
    literal. *)
Fixpoint utf8_decode (bs : list N) : str :=
  match bs with
  | [] => []
  | b0 :: rest =>
      if b0 <? 128 then b0 :: utf8_decode rest
      else if b0 <? 224 then
        match rest with
        | b1 :: r =>
            N.lor (N.shiftl (N.land b0 31) 6) (N.land b1 63) :: utf8_decode r
        | _ => []
        end
      else if b0 <? 240 then
        match rest with
        | b1 :: b2 :: r =>
            N.lor (N.shiftl (N.land b0 15) 12)
              (N.lor (N.shiftl (N.land b1 63) 6) (N.land b2 63))
              :: utf8_decode r
        | _ => []
        end
      else
        match rest with
        | b1 :: b2 :: b3 :: r =>
            N.lor (N.shiftl (N.land b0 7) 18)
              (N.lor (N.shiftl (N.land b1 63) 12)
                 (N.lor (N.shiftl (N.land b2 63) 6) (N.land b3 63)))
              :: utf8_decode r
        | _ => []
        end
  end.

Definition py (s : string) : str :=
  utf8_decode (List.map N_of_ascii (list_ascii_of_string s)).

(** [Py_UNICODE_ISSPACE]: the predicate behind both [str.strip()] and the
    [\s] class of [re] on [str] patterns. *)
Definition isspace (c : N) : bool :=
  ((9 <=? c) && (c <=? 13)) || ((28 <=? c) && (c <=? 32))
  || (c =? 133) || (c =? 160) || (c =? 5760)
  || ((8192 <=? c) && (c <=? 8202))
  || (c =? 8232) || (c =? 8233) || (c =? 8239) || (c =? 8287)
  || (c =? 12288).

Fixpoint lstrip (s : str) : str :=
  match s with
  | [] => []
  | c :: s' => if isspace c then lstrip s' else s
  end.

Definition rstrip (s : str) : str := rev (lstrip (rev s)).

(** [s.strip()] *)
Definition strip (s : str) : str := rstrip (lstrip s).

(** [re.sub(r"\s+", " ", s)]: every maximal run of whitespace is replaced
    by one space (U+0020).  [in_run] tells that the previous character
    belonged to the run being replaced. *)
Fixpoint sub_ws_runs (in_run : bool) (s : str) : str :=
  match s with
  | [] => []
  | c :: s' =>
      if isspace c
      then (if in_run then sub_ws_runs true s' else 32 :: sub_ws_runs true s')
      else c :: sub_ws_runs false s'
  end.

(** The complement of the class [[^a-zA-Z0-9 _-]]. *)
Definition nickname_char (c : N) : bool :=
  ((97 <=? c) && (c <=? 122)) || ((65 <=? c) && (c <=? 90))
  || ((48 <=? c) && (c <=? 57))
  || (c =? 32) || (c =? 95) || (c =? 45).

(** [re.sub(r"[^a-zA-Z0-9 _-]", "", s)] *)
Definition sub_disallowed (s : str) : str := List.filter nickname_char s.

(** [n or ""] for an argument that may be [None]. *)
Definition or_empty (n : option str) : str :=
  match n with
  | Some s => s
  | None => []
  end.

(** [clean_nickname] (app.py, lines 51-56). *)
Definition clean_nickname (n : option str) : str :=
  let n1 := strip (or_empty n) in
  let n2 := sub_ws_runs false n1 in
  let n3 := sub_disallowed n2 in
  firstn 20 n3.

(** The pattern [^[A-Za-z0-9 _-]{0,20}$] of the specification, as a
    matcher on whole strings. *)
Definition matches_nickname_pattern (s : str) : bool :=
  forallb nickname_char s && (length s <=? 20)%nat.

Definition starts_with_space (s : str) : bool :=
  match s with
  | c :: _ => isspace c
  | [] => false
  end.

Definition ends_with_space (s : str) : bool := starts_with_space (rev s).

(** "Collapse internal whitespace runs to a single space", as a relation
    between a string and its collapsed form: a whole run (it is followed
    by no further whitespace) becomes one U+0020, any other character is
    kept. *)
Inductive collapsed : str -> str -> Prop :=
| collapsed_nil : collapsed [] []
| collapsed_char c s s' :
    isspace c = false -> collapsed s s' -> collapsed (c :: s) (c :: s')
| collapsed_run run s s' :
    run <> [] -> forallb isspace run = true ->
    starts_with_space s = false ->
    collapsed s s' -> collapsed (run ++ s) (32 :: s').

(** ** Outcomes of a Python call *)

Inductive exn : Type :=
| OperationalError  (* sqlite3: the database file cannot be opened *)
| OverflowError.    (* datetime: date value out of range;
                       sqlite3: integer parameter outside 64 bits *)

Inductive outcome (A : Type) : Type :=
| Returned (a : A)
| Raised (e : exn).

Arguments Returned {A} a.
Arguments Raised {A} e.

#[global] Instance outcome_ret : MRet outcome := fun A a => Returned a.

#[global] Instance outcome_bind : MBind outcome := fun A B f m =>
  match m with
  | Returned a => f a
  | Raised e => Raised e
  end.

(** ** Calendar dates ([datetime.date]) *)

Record date : Type := Date { year : N; month : N; day : N }.

#[global] Instance date_eq_dec : EqDecision date.
Proof. solve_decision. Defined.

Definition is_leap (y : N) : bool :=
  (y mod 4 =? 0) && (negb (y mod 100 =? 0) || (y mod 400 =? 0)).

Definition days_in_month (y m : N) : N :=
  if m =? 2 then (if is_leap y then 29 else 28)
  else if (m =? 4) || (m =? 6) || (m =? 9) || (m =? 11) then 30
  else 31.

(** The values a [date] object can hold: [MINYEAR = 1], [MAXYEAR = 9999]. *)
Definition date_ok (d : date) : bool :=
  (1 <=? year d) && (year d <=? 9999)
  && (1 <=? month d) && (month d <=? 12)
  && (1 <=? day d) && (day d <=? days_in_month (year d) (month d)).

(** [d - timedelta(days=1)]; below [date.min] it raises [OverflowError]. *)
Definition date_sub_one_day (d : date) : outcome date :=
  if 1 <? day d then Returned (Date (year d) (month d) (day d - 1))
  else if 1 <? month d
  then Returned (Date (year d) (month d - 1)
                   (days_in_month (year d) (month d - 1)))
  else if 1 <? year d then Returned (Date (year d - 1) 12 31)
  else Raised OverflowError.

(** Comparison of [date] objects: the (year, month, day) triples in
    lexicographic order. *)
Definition date_compare (a b : date) : comparison :=
  match year a ?= year b with
  | Eq => match month a ?= month b with
          | Eq => day a ?= day b
          | c => c
          end
  | c => c
  end.

Definition date_leb (a b : date) : bool :=
  match date_compare a b with Gt => false | _ => true end.

Definition digit (n : N) : N := 48 + n mod 10.

Definition dec2 (n : N) : str := [digit (n / 10); digit n].

Definition dec4 (n : N) : str :=
  [digit (n / 1000); digit (n / 100); digit (n / 10); digit n].

(** [%Y] as the C library under CPython writes it: the year in decimal
    with no padding, so four digits from year 1000 on and fewer below
    ([date(999, 1, 1)] gives ['999-01-01']). *)
Definition dec_year (y : N) : str :=
  if y <? 10 then [digit y]
  else if y <? 100 then dec2 y
  else if y <? 1000 then [digit (y / 100); digit (y / 10); digit y]
  else dec4 y.

(** [d.strftime("%Y-%m-%d")]: the year as [%Y] gives it, month and day on
    two digits, zero padded. *)
Definition strftime_ymd (d : date) : str :=
  dec_year (year d) ++ [45] ++ dec2 (month d) ++ [45] ++ dec2 (day d).

(** ** The wall clock *)

Record clock : Type :=
  Clock { clock_date : date; clock_hour : N; clock_minute : N }.

(** [date.today()] *)
Definition date_today (c : clock) : date := clock_date c.

(** [now_str] (app.py, lines 43-44): [datetime.now()] formatted with
    ["%Y-%m-%d %H:%M"]. *)
Definition now_str (c : clock) : str :=
  strftime_ymd (clock_date c) ++ [32] ++ dec2 (clock_hour c) ++ [58]
    ++ dec2 (clock_minute c).

(** [today_str] (app.py, lines 47-48). *)
Definition today_str (c : clock) : str := strftime_ymd (date_today c).

(** ** Comparison of TEXT values (SQLite's BINARY collation: the order of
    the UTF-8 bytes, which is the order of the code points) *)

Fixpoint str_compare (a b : str) : comparison :=
  match a, b with
  | [], [] => Eq
  | [], _ :: _ => Lt
  | _ :: _, [] => Gt
  | x :: a', y :: b' =>
      match x ?= y with
      | Eq => str_compare a' b'
      | c => c
      end
  end.

Definition str_leb (a b : str) : bool :=
  match str_compare a b with Gt => false | _ => true end.

(** ** The database file ([teachhub.db]) *)

Record post_row : Type := PostRow {
  post_created_at : str; post_author : str; post_category : str;
  post_title : str; post_body : str }.

Record reply_row : Type := ReplyRow {
  reply_post_id : Z; reply_created_at : str; reply_author : str;
  reply_body : str }.

(** Table [challenges]: [code TEXT UNIQUE NOT NULL]. *)
Record challenge_row : Type := ChallengeRow {
  ch_code : str; ch_title : str; ch_category : str; ch_instruction : str;
  ch_seconds : Z }.

(** Table [challenge_logs]: [UNIQUE(log_date, author, challenge_code)]. *)
Record log_row : Type := LogRow {
  cl_log_date : str; cl_author : str; cl_challenge_code : str;
  cl_completed : Z; cl_created_at : str }.

(** Table [daily_reflections]: [UNIQUE(log_date, author)]; the three text
    columns are nullable. *)
Record reflection_row : Type := ReflectionRow {
  rf_log_date : str; rf_author : str;
  rf_win : option str; rf_stress_shift : option str; rf_note : option str;
  rf_created_at : str }.

Record database : Type := Database {
  posts : list post_row;
  replies : list reply_row;
  challenges : list challenge_row;
  challenge_logs : list log_row;
  daily_reflections : list reflection_row }.

(** A file that does not exist yet: [init_db] creates the five tables
    empty ([CREATE TABLE IF NOT EXISTS]). *)
Definition empty_db : database := Database [] [] [] [] [].

(** What [sqlite3.connect(DB_FILE)] finds. *)
Inductive store : Type :=
| Unavailable
| Available (db : database).

(** [get_conn] (app.py, lines 81-82). *)
Definition get_conn (s : store) : outcome database :=
  match s with
  | Available db => Returned db
  | Unavailable => Raised OperationalError
  end.

(** *** SQL statements *)

(** [INSERT OR IGNORE INTO challenges (...)]: a row whose [code] is taken
    violates the UNIQUE constraint and is dropped. *)
Definition insert_or_ignore_challenge
    (t : list challenge_row) (r : challenge_row) : list challenge_row :=
  if decide (Exists (fun x => ch_code x = ch_code r) t) then t else t ++ [r].

(** The conflict target [(log_date, author, challenge_code)]. *)
Definition same_log_key (r x : log_row) : Prop :=
  cl_log_date x = cl_log_date r /\ cl_author x = cl_author r
  /\ cl_challenge_code x = cl_challenge_code r.

#[global] Instance same_log_key_dec r x : Decision (same_log_key r x).
Proof. unfold same_log_key. apply _. Defined.

(** [INSERT INTO challenge_logs ... ON CONFLICT(log_date, author,
    challenge_code) DO UPDATE SET completed = excluded.completed,
    created_at = excluded.created_at]. *)
Definition upsert_challenge_log (t : list log_row) (r : log_row)
    : list log_row :=
  if decide (Exists (same_log_key r) t)
  then List.map (fun x =>
         if decide (same_log_key r x)
         then LogRow (cl_log_date x) (cl_author x) (cl_challenge_code x)
                (cl_completed r) (cl_created_at r)
         else x) t
  else t ++ [r].

(** The conflict target [(log_date, author)]. *)
Definition same_reflection_key (r x : reflection_row) : Prop :=
  rf_log_date x = rf_log_date r /\ rf_author x = rf_author r.

#[global] Instance same_reflection_key_dec r x :
  Decision (same_reflection_key r x).
Proof. unfold same_reflection_key. apply _. Defined.

(** [INSERT INTO daily_reflections ... ON CONFLICT(log_date, author)
    DO UPDATE SET win = excluded.win, stress_shift = excluded.stress_shift,
    note = excluded.note, created_at = excluded.created_at]. *)
Definition upsert_daily_reflection (t : list reflection_row)
    (r : reflection_row) : list reflection_row :=
  if decide (Exists (same_reflection_key r) t)
  then List.map (fun x =>
         if decide (same_reflection_key r x)
         then ReflectionRow (rf_log_date x) (rf_author x)
                (rf_win r) (rf_stress_shift r) (rf_note r) (rf_created_at r)
         else x) t
  else t ++ [r].

(** *** [init_db] (app.py, lines 85-189) *)

Definition default_challenges : list challenge_row :=
  [ ChallengeRow (py "CHALLENGE_MINDSET") (py "Challenge mindset")
      (py "Stress → Performance")
      (py "Pick ONE moment today to reframe as a challenge (not a threat). Say: “I’m excited” or “This is practice.”")
      60;
    ChallengeRow (py "BREATH_RESET") (py "30-second breathing reset")
      (py "Stress → Performance")
      (py "Breathe in for 5, out for 5 (or 6) for 3 cycles. Use before meetings/classes.")
      45;
    ChallengeRow (py "SMALL_GOAL") (py "Small goal (finishable)")
      (py "Momentum")
      (py "Write ONE small task you will finish today. When done, take 2 minutes to enjoy the win.")
      90;
    ChallengeRow (py "MOVE_10") (py "10-minute brisk walk")
      (py "Brain boost")
      (py "Move for 10 minutes (walk counts). Outdoor if possible. Aim to reset your head, not smash a workout.")
      600;
    ChallengeRow (py "SINGLE_TASK") (py "Single-task focus")
      (py "Workload")
      (py "Turn off notifications for 20 minutes and do ONE thing properly.")
      1200;
    ChallengeRow (py "POSTURE_CHECK") (py "Posture check")
      (py "Energy")
      (py "Sit tall / shoulders open for 60 seconds. Head up. Reset your state.")
      60;
    ChallengeRow (py "RIGHT_HAND_SQUEEZE") (py "Right-hand squeeze")
      (py "Confidence")
      (py "Squeeze your right hand firmly for ~45 seconds before a stressful moment (call / presentation).")
      45;
    ChallengeRow (py "PAUSE_BETWEEN") (py "Pause between tasks")
      (py "Attention")
      (py "Take a 2–5 minute pause between tasks (breathing / stretch / short reset) instead of rushing.")
      180 ].

Definition init_db (s : store) : outcome database :=
  conn ← get_conn s;
  mret (Database (posts conn) (replies conn)
          (fold_left insert_or_ignore_challenge default_challenges
             (challenges conn))
          (challenge_logs conn) (daily_reflections conn)).

(** *** Community helpers (app.py, lines 365-384) *)

Definition add_post (clk : clock) (s : store)
    (author category title body : str) : outcome database :=
  conn ← get_conn s;
  mret (Database
          (posts conn ++
             [PostRow (now_str clk) author category (strip title) (strip body)])
          (replies conn) (challenges conn) (challenge_logs conn)
          (daily_reflections conn)).

(** A Python [int] that [sqlite3] can bind to a parameter: one that fits
    SQLite's 64-bit signed INTEGER.  Any other makes [execute] raise
    [OverflowError]. *)
Definition sqlite_integer (z : Z) : bool :=
  ((- 2 ^ 63 <=? z) && (z <? 2 ^ 63))%Z.

(** [add_reply] (lines 376-384). *)
Definition add_reply (clk : clock) (s : store)
    (post_id : Z) (author body : str) : outcome database :=
  conn ← get_conn s;
  if sqlite_integer post_id
  then mret (Database (posts conn)
               (replies conn
                  ++ [ReplyRow post_id (now_str clk) author (strip body)])
               (challenges conn) (challenge_logs conn)
               (daily_reflections conn))
  else Raised OverflowError.

(** *** Challenge helpers (app.py, lines 459-571) *)

(** [set_challenge_completion] (lines 459-472). *)
Definition set_challenge_completion (clk : clock) (s : store)
    (author log_date challenge_code : str) (completed : Z)
    : outcome database :=
  conn ← get_conn s;
  mret (Database (posts conn) (replies conn) (challenges conn)
          (upsert_challenge_log (challenge_logs conn)
             (LogRow log_date author challenge_code completed (now_str clk)))
          (daily_reflections conn)).

(** The dictionary returned by [fetch_reflection]. *)
Record reflection : Type :=
  Reflection { win : str; stress_shift : str; note : str }.

(** [fetch_reflection] (lines 475-490): [fetchone] gives the first row of
    the result, or [None]. *)
Definition fetch_reflection (s : store) (author log_date : str)
    : outcome reflection :=
  conn ← get_conn s;
  match filter (fun x => rf_author x = author /\ rf_log_date x = log_date)
          (daily_reflections conn) with
  | [] => mret (Reflection [] [] [])
  | row :: _ =>
      mret (Reflection (or_empty (rf_win row)) (or_empty (rf_stress_shift row))
              (or_empty (rf_note row)))
  end.

(** [save_reflection] (lines 493-506). *)
Definition save_reflection (clk : clock) (s : store)
    (author log_date win stress_shift note : str) : outcome database :=
  conn ← get_conn s;
  mret (Database (posts conn) (replies conn) (challenges conn)
          (challenge_logs conn)
          (upsert_daily_reflection (daily_reflections conn)
             (ReflectionRow log_date author (Some (strip win))
                (Some (strip stress_shift)) (Some (strip note))
                (now_str clk)))).

(** The [while True] loop of [compute_streak] (lines 531-537); [None] when
    the fuel is used up before the loop ends. *)
Fixpoint streak_loop (fuel : nat) (completed_dates : gset str) (d : date)
    (streak : Z) : option (outcome Z) :=
  match fuel with
  | O => None
  | S fuel' =>
      let ds := strftime_ymd d in
      if decide (ds ∈ completed_dates)
      then match date_sub_one_day d with
           | Returned d' => streak_loop fuel' completed_dates d' (streak + 1)
           | Raised e => Some (Raised e)
           end
      else Some (Returned streak)
  end.

(** [compute_streak] (lines 509-538). *)
Definition compute_streak (fuel : nat) (clk : clock) (s : store)
    (author : str) : option (outcome Z) :=
  match get_conn s with
  | Raised e => Some (Raised e)
  | Returned conn =>
      let rows :=
        remove_dups
          (List.map cl_log_date
             (filter (fun x => cl_author x = author /\ cl_completed x = 1%Z)
                (challenge_logs conn))) in
      let completed_dates : gset str := list_to_set rows in
      streak_loop fuel completed_dates (date_today clk) 0
  end.

(** [completed_count_in_range] (lines 541-555). *)
Definition completed_count_in_range (s : store) (author : str)
    (start_date end_date : date) : outcome Z :=
  conn ← get_conn s;
  mret (Z.of_nat (length
    (filter (fun x => cl_author x = author /\ cl_completed x = 1%Z
                      /\ str_leb (strftime_ymd start_date) (cl_log_date x) = true
                      /\ str_leb (cl_log_date x) (strftime_ymd end_date) = true)
       (challenge_logs conn)))).

(** [daily_completion_total] (lines 558-571). *)
Definition daily_completion_total (s : store) (author log_date : str)
    : outcome Z :=
  conn ← get_conn s;
  mret (Z.of_nat (length
    (filter (fun x => cl_author x = author /\ cl_log_date x = log_date
                      /\ cl_completed x = 1%Z)
       (challenge_logs conn)))).

(** ** Reachable contents of the database *)

(** The operations of the program that write to the database. *)
Inductive call : Type :=
| CallInitDb
| CallAddPost (author category title body : str)
| CallAddReply (post_id : Z) (author body : str)
| CallSetChallengeCompletion (author log_date challenge_code : str)
    (completed : Z)
| CallSaveReflection (author log_date win stress_shift note : str).

Definition exec_call (clk : clock) (s : store) (c : call) : outcome database :=
  match c with
  | CallInitDb => init_db s
  | CallAddPost a c t b => add_post clk s a c t b
  | CallAddReply p a b => add_reply clk s p a b
  | CallSetChallengeCompletion a d c v => set_challenge_completion clk s a d c v
  | CallSaveReflection a d w x n => save_reflection clk s a d w x n
  end.

(** The script calls [init_db()] at import (line 192) on a file that is
    new or was left by an earlier run; every later write goes through one
    of the calls above. *)
Inductive reachable : database -> Prop :=
| reachable_init db :
    init_db (Available empty_db) = Returned db -> reachable db
| reachable_step db clk c db' :
    reachable db -> exec_call clk (Available db) c = Returned db' ->
    reachable db'.

(** ** Notions of the specification *)

(** The uniqueness constraints of the two tables, on their contents. *)
Definition log_key (x : log_row) : str * str * str :=
  (cl_log_date x, cl_author x, cl_challenge_code x).

Definition reflection_key (x : reflection_row) : str * str :=
  (rf_log_date x, rf_author x).

Definition unique_logs (db : database) : Prop :=
  NoDup (List.map log_key (challenge_logs db)).

Definition unique_reflections (db : database) : Prop :=
  NoDup (List.map reflection_key (daily_reflections db)).

Definition unique_codes (db : database) : Prop :=
  NoDup (List.map ch_code (challenges db)).

(** The three UNIQUE constraints together. *)
Definition constraints_hold (db : database) : Prop :=
  unique_logs db /\ unique_reflections db /\ unique_codes db.

(** The rows of [daily_reflections] stored under one key. *)
Definition reflections_at (db : database) (log_date author : str)
    : list reflection_row :=
  filter (fun x => reflection_key x = (log_date, author))
    (daily_reflections db).

(** The rows of [challenge_logs] stored under one key. *)
Definition logs_at (db : database) (log_date author challenge_code : str)
    : list log_row :=
  filter (fun x => log_key x = (log_date, author, challenge_code))
    (challenge_logs db).

(** The rows of [challenges] stored under one code. *)
Definition challenges_at (db : database) (code : str) : list challenge_row :=
  filter (fun x => ch_code x = code) (challenges db).

(** A sequence of [set_challenge_completion] calls for one key, each at
    its own time, with the checkbox value passed as [1 if checked else 0]. *)
Fixpoint set_completions (db : database) (author log_date challenge_code : str)
    (calls : list (clock * bool)) : outcome database :=
  match calls with
  | [] => Returned db
  | (clk, checked) :: rest =>
      db' ← set_challenge_completion clk (Available db) author log_date
              challenge_code (Z.b2z checked);
      set_completions db' author log_date challenge_code rest
  end.

(** [init_db] run [n] times in a row. *)
Fixpoint init_db_times (n : nat) (db : database) : outcome database :=
  match n with
  | O => Returned db
  | S n' => db' ← init_db (Available db); init_db_times n' db'
  end.

(** A valid calendar date string: the text ["YYYY-MM-DD"] of a date. *)
Definition digit_value (c : N) : option N :=
  if (48 <=? c) && (c <=? 57) then Some (c - 48) else None.

Definition parse_ymd (s : str) : option date :=
  match s with
  | [y1; y2; y3; y4; h1; m1; m2; h2; d1; d2] =>
      if (h1 =? 45) && (h2 =? 45) then
        a ← digit_value y1; b ← digit_value y2; c ← digit_value y3;
        e ← digit_value y4; f ← digit_value m1; g ← digit_value m2;
        h ← digit_value d1; i ← digit_value d2;
        let d := Date (1000 * a + 100 * b + 10 * c + e) (10 * f + g)
                   (10 * h + i) in
        if date_ok d then Some d else None
      else None
  | _ => None
  end.

Definition valid_date_string (s : str) : Prop :=
  exists d, date_ok d = true /\ s = strftime_ymd d.

(** The date [i] calendar days before [d], as long as there is one. *)
Fixpoint days_before (i : nat) (d : date) : option date :=
  match i with
  | O => Some d
  | S i' =>
      match date_sub_one_day d with
      | Returned d' => days_before i' d'
      | Raised _ => None
      end
  end.

(** The user has at least one [completed = 1] row on day [d]. *)
Definition completed_on (db : database) (author : str) (d : date) : Prop :=
  exists x, x ∈ challenge_logs db /\ cl_author x = author
            /\ cl_completed x = 1%Z /\ cl_log_date x = strftime_ymd d.

(** The backward walk of the specification: [k] is the number of
    consecutive days, ending at [as_of], that are in the set; the walk
    stops at the first day that is not. *)
Definition streak_ending_at (db : database) (author : str) (as_of : date)
    (k : nat) : Prop :=
  (forall i, (i < k)%nat ->
     exists d, days_before i as_of = Some d /\ completed_on db author d)
  /\ (exists d, days_before k as_of = Some d /\ ~ completed_on db author d).

(** Fuel that lets the loop of [compute_streak] reach [date.min]. *)
Definition date_fuel (d : date) : nat :=
  N.to_nat (372 * year d + 31 * month d + day d).

(** The completed rows of a user whose date, read as a calendar date,
    lies between [start_date] and [end_date], both included. *)
Definition completed_rows_between (db : database) (author : str)
    (start_date end_date : date) : list log_row :=
  filter (fun x => cl_author x = author /\ cl_completed x = 1%Z
                   /\ from_option
                        (fun d => date_leb start_date d && date_leb d end_date)
                        false (parse_ymd (cl_log_date x)) = true)
    (challenge_logs db).

(** Every stored [log_date] was produced from a [date] object of a year
    from 1000 on, as the challenge page does
    ([selected.strftime("%Y-%m-%d")]). *)
Definition well_dated (db : database) : Prop :=
  Forall (fun x => exists d, date_ok d = true /\ 1000 <= year d
                             /\ cl_log_date x = strftime_ymd d)
    (challenge_logs db).

(** ** The other readers of the database *)

(** [fetch_challenges] (app.py, lines 430-439): the five selected columns
    of every row, [ORDER BY id ASC]. *)
Definition fetch_challenges (s : store) : outcome (list challenge_row) :=
  conn ← get_conn s;
  mret (challenges conn).

(** [fetch_user_logs] (lines 442-456): the dictionary comprehension
    [{code: int(done) for code, done in rows}]; a later row with the same
    code replaces an earlier one. *)
Definition fetch_user_logs (s : store) (author log_date : str)
    : outcome (gmap str Z) :=
  conn ← get_conn s;
  let rows :=
    filter (fun x => cl_author x = author /\ cl_log_date x = log_date)
      (challenge_logs conn) in
  mret (fold_left (fun m x => <[cl_challenge_code x := cl_completed x]> m)
          rows ∅).

(** The rows of a table with their [id]: 1, 2, 3, ... in insertion
    order (AUTOINCREMENT, no row is ever deleted). *)
Fixpoint with_rowid_from {A : Type} (n : Z) (t : list A) : list (Z * A) :=
  match t with
  | [] => []
  | x :: t' => (n, x) :: with_rowid_from (n + 1) t'
  end.

Definition with_rowid {A : Type} (t : list A) : list (Z * A) :=
  with_rowid_from 1 t.

(** SQLite's [LIKE] with its default settings.  Both operands are read
    as C strings, that is up to their first U+0000 ([c_str]); on what is
    read, [%] (37) matches any sequence of characters, [_] (95) any one
    character, and every other character matches itself, upper and lower
    case ASCII letters being taken as equal ([like_match]). *)
Definition ascii_lower (c : N) : N :=
  if (65 <=? c) && (c <=? 90) then c + 32 else c.

Fixpoint c_str (s : str) : str :=
  match s with
  | [] => []
  | c :: s' => if c =? 0 then [] else c :: c_str s'
  end.

Fixpoint like_match (pattern text : str) : bool :=
  match pattern with
  | [] => match text with [] => true | _ :: _ => false end
  | c :: pattern' =>
      if c =? 37
      then (fix any_suffix (t : str) : bool :=
              like_match pattern' t
              || match t with [] => false | _ :: t' => any_suffix t' end) text
      else match text with
           | [] => false
           | x :: text' =>
               ((c =? 95) || (ascii_lower c =? ascii_lower x))
               && like_match pattern' text'
           end
  end.

Definition sql_like (pattern text : str) : bool :=
  like_match (c_str pattern) (c_str text).

(** The number of bytes of the UTF-8 encoding of a string; SQLite refuses
    a [LIKE] pattern of more than 50000 bytes. *)
Definition utf8_length (s : str) : N :=
  fold_right (fun c n =>
                (if c <? 128 then 1 else if c <? 2048 then 2
                 else if c <? 65536 then 3 else 4) + n) 0 s.

Definition like_pattern_ok (search_text : str) : bool :=
  utf8_length (strip search_text) + 2 <=? 50000.

(** The WHERE clause that [fetch_posts] builds. *)
Definition post_selected (search_text category_filter : str)
    (x : Z * post_row) : bool :=
  (if decide (category_filter = py "All") then true
   else bool_decide (post_category (snd x) = category_filter))
  && (if decide (strip search_text = []) then true
      else let s := [37] ++ strip search_text ++ [37] in
           sql_like s (post_title (snd x)) || sql_like s (post_body (snd x))).

(** [fetch_posts] (lines 387-412), for a search text within SQLite's
    pattern limit: [(id, created_at, author, category, title, body)],
    [ORDER BY id DESC]. *)
Definition fetch_posts (s : store) (search_text category_filter : str)
    : outcome (list (Z * post_row)) :=
  conn ← get_conn s;
  mret (rev (List.filter (post_selected search_text category_filter)
               (with_rowid (posts conn)))).

(** [fetch_replies] (lines 415-424): [(created_at, author, body)] of the
    replies to one post, [ORDER BY id ASC]. *)
Definition fetch_replies (s : store) (post_id : Z)
    : outcome (list (str * str * str)) :=
  conn ← get_conn s;
  if sqlite_integer post_id
  then mret (List.map
               (fun r => (reply_created_at r, reply_author r, reply_body r))
               (filter (fun r => reply_post_id r = post_id) (replies conn)))
  else Raised OverflowError.

(** ** Date arithmetic of the dashboard *)

(** [d + timedelta(days=1)]; above [date.max] it raises [OverflowError]. *)
Definition date_add_one_day (d : date) : outcome date :=
  if day d <? days_in_month (year d) (month d)
  then Returned (Date (year d) (month d) (day d + 1))
  else if month d <? 12 then Returned (Date (year d) (month d + 1) 1)
  else if year d <? 9999 then Returned (Date (year d + 1) 1 1)
  else Raised OverflowError.

(** [d - timedelta(days=n)] and [d + timedelta(days=n)] for [n >= 0]. *)
Fixpoint date_sub_days (n : nat) (d : date) : outcome date :=
  match n with
  | O => Returned d
  | S n' => d' ← date_sub_one_day d; date_sub_days n' d'
  end.

Fixpoint date_add_days (n : nat) (d : date) : outcome date :=
  match n with
  | O => Returned d
  | S n' => d' ← date_add_one_day d; date_add_days n' d'
  end.

(** [_days_before_year], [_days_before_month] and [date.toordinal]: day 1
    is 0001-01-01. *)
Definition days_before_year (y : N) : N :=
  365 * (y - 1) + (y - 1) / 4 + (y - 1) / 400 - (y - 1) / 100.

Definition days_before_month (y m : N) : N :=
  match m with
  | 1 => 0 | 2 => 31 | 3 => 59 | 4 => 90 | 5 => 120 | 6 => 151 | 7 => 181
  | 8 => 212 | 9 => 243 | 10 => 273 | 11 => 304 | _ => 334
  end + (if (2 <? m) && is_leap y then 1 else 0).

Definition toordinal (d : date) : N :=
  days_before_year (year d) + days_before_month (year d) (month d) + day d.

(** [d.weekday()]: Monday is 0, Sunday is 6. *)
Definition weekday (d : date) : N := (toordinal d + 6) mod 7.

(** The statistics block of [page_challenges] (lines 741-748): the
    streak, the number of completions from Monday to Sunday of the current
    week, and today's number.  The block reads the clock four times, in
    this order: inside [compute_streak] ([clk_streak]), for the left
    operand of the subtraction that gives [week_start] ([clk_week]), for
    the [weekday()] in its right operand ([clk_weekday]), and inside
    [today_str] ([clk_today]); and it opens the database file three
    times, once in each helper ([s_streak], [s_week], [s_today]). *)
Definition page_challenges_dashboard (fuel : nat)
    (clk_streak : clock) (s_streak : store)
    (clk_week clk_weekday : clock) (s_week : store)
    (clk_today : clock) (s_today : store)
    (author : str) : option (outcome (Z * Z * Z)) :=
  match compute_streak fuel clk_streak s_streak author with
  | None => None
  | Some (Raised e) => Some (Raised e)
  | Some (Returned streak) =>
      Some (week_start ← date_sub_days
                          (N.to_nat (weekday (date_today clk_weekday)))
                          (date_today clk_week);
            week_end ← date_add_days 6 week_start;
            week_done ← completed_count_in_range s_week author
                          week_start week_end;
            today_done ← daily_completion_total s_today author
                           (today_str clk_today);
            mret (streak, week_done, today_done))
  end.

(** ** The handlers of the pages *)

(** How a button handler ends. *)
Inductive page_outcome : Type :=
| PageStopped                  (* [st.stop()] after the nickname warning *)
| PageWarned                   (* [st.warning(...)], nothing is written *)
| PageSaved (db : database).   (* the write was made *)

(** [require_nickname_or_stop] (lines 359-362): [true] when the script
    goes on, [false] when it warns and stops. *)
Definition require_nickname_or_stop (nickname : str) : bool :=
  if decide (strip nickname = []) then false else true.

(** The "Post" button of [page_community] (lines 1013-1022). *)
Definition page_community_post (clk : clock) (s : store)
    (nickname category title body : str) : outcome page_outcome :=
  if require_nickname_or_stop nickname then
    if decide (strip title = [] \/ strip body = [])
    then mret PageWarned
    else db' ← add_post clk s (strip nickname) category title body;
         mret (PageSaved db')
  else mret PageStopped.

(** The "Submit reply" button of [page_community] (lines 1054-1062). *)
Definition page_community_reply (clk : clock) (s : store)
    (nickname : str) (post_id : Z) (reply_text : str) : outcome page_outcome :=
  if require_nickname_or_stop nickname then
    if decide (strip reply_text = [])
    then mret PageWarned
    else db' ← add_reply clk s post_id (strip nickname) reply_text;
         mret (PageSaved db')
  else mret PageStopped.

(** [by_cat.setdefault(cat, []).append(row)] on a dictionary kept as the
    list of its items in insertion order. *)
Fixpoint setdefault_append (cat : str) (row : challenge_row)
    (by_cat : list (str * list challenge_row))
    : list (str * list challenge_row) :=
  match by_cat with
  | [] => [(cat, [row])]
  | (k, items) :: rest =>
      if decide (k = cat) then (k, items ++ [row]) :: rest
      else (k, items) :: setdefault_append cat row rest
  end.

Definition group_by_category (cs : list challenge_row)
    : list (str * list challenge_row) :=
  fold_left (fun by_cat row => setdefault_append (ch_category row) row by_cat)
    cs [].

(** The checklist of [page_challenges] (lines 762-790): every challenge
    of the catalogue, category by category, is saved with the state of
    its checkbox.  [checkbox code default] is what [st.checkbox] returns
    for the challenge [code] when its initial value is [default]. *)
Definition save_checkbox (clk : clock) (author log_date : str)
    (existing : gmap str Z) (checkbox : str -> bool -> bool)
    (acc : outcome database) (row : challenge_row) : outcome database :=
  db ← acc;
  let default_checked :=
    negb (default 0%Z (existing !! ch_code row) =? 0)%Z in
  let checked := checkbox (ch_code row) default_checked in
  set_challenge_completion clk (Available db) author log_date (ch_code row)
    (if checked then 1 else 0).

Definition page_challenges_checklist (clk : clock) (s : store)
    (author log_date : str) (checkbox : str -> bool -> bool)
    : outcome database :=
  challenges ← fetch_challenges s;
  existing ← fetch_user_logs s author log_date;
  db ← get_conn s;
  fold_left
    (fun acc group =>
       fold_left (save_checkbox clk author log_date existing checkbox)
         (snd group) acc)
    (group_by_category challenges) (Returned db).

(** ** Notions used for the community board *)


(** A text that is not empty and has no whitespace around it. *)
Definition filled (x : str) : Prop := x <> [] /\ strip x = x.

Definition post_filled (p : post_row) : Prop :=
  filled (post_author p) /\ filled (post_title p) /\ filled (post_body p).

Definition reply_filled (r : reply_row) : Prop :=
  filled (reply_author r) /\ filled (reply_body r).

(** ** Notions used for the dashboard *)

(** A number that orders the dates as [date] objects compare. *)
Definition date_rank (d : date) : N := 372 * year d + 31 * month d + day d.

(** ** Notions used for the nickname *)

(** Two whitespace characters in a row. *)
Fixpoint double_space (s : str) : bool :=
  match s with
  | a :: (b :: _) as t => (isspace a && isspace b) || double_space t
  | _ => false
  end.

(** A nickname in its final form: allowed characters only, at most 20 of
    them, no space at either end and no two spaces in a row. *)
Definition tidy (s : str) : Prop :=
  forallb nickname_char s = true /\ (length s <= 20)%nat
  /\ starts_with_space s = false /\ ends_with_space s = false
  /\ double_space s = false.

(** ** The wellbeing check-in *)

Section WellbeingModel.

#[local] Open Scope Z_scope.
#[local] Set Warnings "-inexact-float".

(** Conversion of a Python [int] to [float]: round to nearest, ties to
    even; [OverflowError] when the integer is too large. *)
Definition float_of_Z (z : Z) : float :=
  SF2Prim (binary_normalize prec emax z 0 false).

Definition float_of_int (z : Z) : outcome float :=
  let f := float_of_Z z in
  if is_infinity f then Raised OverflowError else Returned f.

(** The integer nearest to [a / d] ([d > 0]), ties to the even one. *)
Definition div_half_even (a d : Z) : Z :=
  let q := a / d in
  match 2 * (a mod d) ?= d with
  | Lt => q
  | Gt => q + 1
  | Eq => if Z.even q then q else q + 1
  end.

(** [round(x, 1)]: the decimal with one digit that is nearest to the
    exact value of [x] (ties to even), converted back to the nearest
    [float]; infinities and NaN are returned as they are. *)
Definition round1 (x : float) : float :=
  match Prim2SF x with
  | S754_finite s m e =>
      let k := if 0 <=? e then 10 * Zpos m * 2 ^ e
               else div_half_even (10 * Zpos m) (2 ^ (- e)) in
      match k with
      | Zpos p =>
          SF2Prim (SFdiv prec emax (S754_finite s p 0) (S754_finite false 10 0))
      | _ => SF2Prim (S754_zero s)
      end
  | _ => x
  end.


Inductive level : Type := Green | Amber | Red.

(** [wellbeing_assessment] (app.py, lines 577-592), for integer
    arguments. *)
Definition wellbeing_assessment
    (workload exhaustion sleep_problem support_problem boundary_problem : Z)
    : outcome (level * float) :=
  w ← float_of_int workload;
  e ← float_of_int exhaustion;
  s ← float_of_int sleep_problem;
  p ← float_of_int support_problem;
  b ← float_of_int boundary_problem;
  let score := (1.2 * w + 1.4 * e + 1.0 * s + 0.8 * p + 0.6 * b)%float in
  let level :=
    if (32 <=? score)%float then Red
    else if (20 <=? score)%float then Amber
    else Green in
  mret (level, round1 score).

(** Ten times the weighted sum, computed exactly. *)
Definition wellbeing_tenths (w e s p b : Z) : Z :=
  12 * w + 14 * e + 10 * s + 8 * p + 6 * b.

Definition level_within (l : level) (k : Z) : bool :=
  match l with
  | Red => 320 <=? k
  | Amber => (200 <=? k) && (k <=? 320)
  | Green => k <=? 200
  end.

Definition wellbeing_check (w e s p b : Z) : bool :=
  match wellbeing_assessment w e s p b with
  | Returned (l, score) =>
      (score =? float_of_Z (wellbeing_tenths w e s p b) / 10)%float
      && level_within l (wellbeing_tenths w e s p b)
  | Raised _ => false
  end.

Definition sliders : list Z := [1; 2; 3; 4; 5; 6; 7; 8; 9; 10].

End WellbeingModel.

(** ** Sample data *)

(** A sequence of writing calls, each at its own time. *)
Fixpoint run_calls (db : database) (cs : list (clock * call))
    : outcome database :=
  match cs with
  | [] => Returned db
  | (clk, c) :: rest =>
      db' ← exec_call clk (Available db) c; run_calls db' rest
  end.

(** The database right after the first [init_db()]. *)
Definition seeded_db : database :=
  Database [] []
    (fold_left insert_or_ignore_challenge default_challenges []) [] [].

Definition sample_author : str := py "MsH".

(** Three days in a row with a completed challenge, two challenges on
    the third day, and a reflection on the third day. *)
Definition sample_calls : list (clock * call) :=
  [ (Clock (Date 2024 1 1) 16 30,
     CallSetChallengeCompletion sample_author (py "2024-01-01") (py "MOVE_10") 1);
    (Clock (Date 2024 1 2) 16 45,
     CallSetChallengeCompletion sample_author (py "2024-01-02") (py "MOVE_10") 1);
    (Clock (Date 2024 1 3) 9 5,
     CallSetChallengeCompletion sample_author (py "2024-01-03") (py "MOVE_10") 1);
    (Clock (Date 2024 1 3) 9 6,
     CallSetChallengeCompletion sample_author (py "2024-01-03")
       (py "SMALL_GOAL") 1);
    (Clock (Date 2024 1 3) 9 7,
     CallSaveReflection sample_author (py "2024-01-03") (py " a ") (py "b")
       (py "c")) ].

Definition sample_db : database :=
  Database [] [] (challenges seeded_db)
    [ LogRow (py "2024-01-01") sample_author (py "MOVE_10") 1
        (py "2024-01-01 16:30");
      LogRow (py "2024-01-02") sample_author (py "MOVE_10") 1
        (py "2024-01-02 16:45");
      LogRow (py "2024-01-03") sample_author (py "MOVE_10") 1
        (py "2024-01-03 09:05");
      LogRow (py "2024-01-03") sample_author (py "SMALL_GOAL") 1
        (py "2024-01-03 09:06") ]
    [ ReflectionRow (py "2024-01-03") sample_author (Some (py "a"))
        (Some (py "b")) (Some (py "c")) (py "2024-01-03 09:07") ].

(** ** Proof tools *)

Ltac run_conn :=
  cbn [get_conn mbind outcome_bind]; unfold mret, outcome_ret.

(** * Properties *)

(** ** The nickname normaliser *)

Section Strings.

Lemma lstrip_split (s : str) :
  exists pre, s = pre ++ lstrip s /\ forallb isspace pre = true.
Proof.
  induction s as [|c s [pre [Hs Hpre]]]; simpl.
  - exists []. auto.
  - destruct (isspace c) eqn:Hc.
    + exists (c :: pre). simpl. rewrite Hc, Hpre. split; [congruence | reflexivity].
    + exists []. auto.
Qed.

Lemma lstrip_starts (s : str) : starts_with_space (lstrip s) = false.
Proof.
  induction s as [|c s IH]; simpl; auto.
  destruct (isspace c) eqn:Hc; simpl; auto.
Qed.

Lemma lstrip_length (s : str) : (length (lstrip s) <= length s)%nat.
Proof.
  induction s as [|c s IH]; simpl; auto.
  destruct (isspace c); simpl; lia.
Qed.

Lemma lstrip_fixed (s : str) : starts_with_space s = false -> lstrip s = s.
Proof. destruct s as [|c s]; simpl; auto. intros ->. reflexivity. Qed.

Lemma forallb_rev (f : N -> bool) (l : list N) :
  forallb f (rev l) = forallb f l.
Proof.
  induction l as [|x l IH]; simpl; auto.
  rewrite forallb_app, IH. simpl. rewrite andb_true_r. apply andb_comm.
Qed.

Lemma rstrip_split (s : str) :
  exists suf, s = rstrip s ++ suf /\ forallb isspace suf = true.
Proof.
  unfold rstrip. destruct (lstrip_split (rev s)) as [pre [Hs Hpre]].
  exists (rev pre). split.
  - rewrite <- rev_app_distr, <- Hs. symmetry. apply rev_involutive.
  - rewrite forallb_rev. exact Hpre.
Qed.

Lemma rstrip_ends (s : str) : ends_with_space (rstrip s) = false.
Proof.
  unfold ends_with_space, rstrip. rewrite rev_involutive. apply lstrip_starts.
Qed.

Lemma rstrip_starts (s : str) :
  starts_with_space s = false -> starts_with_space (rstrip s) = false.
Proof.
  intros Hs. destruct (rstrip_split s) as [suf [Heq _]].
  destruct (rstrip s) as [|c r]; simpl; auto.
  rewrite Heq in Hs. exact Hs.
Qed.

(** What [strip] does: it removes a whitespace prefix and a whitespace
    suffix, and what is left neither starts nor ends with whitespace. *)
Lemma strip_split (s : str) :
  exists pre suf,
    s = pre ++ strip s ++ suf
    /\ forallb isspace pre = true /\ forallb isspace suf = true
    /\ starts_with_space (strip s) = false
    /\ ends_with_space (strip s) = false.
Proof.
  destruct (lstrip_split s) as [pre [Hs Hpre]].
  destruct (rstrip_split (lstrip s)) as [suf [Ht Hsuf]].
  exists pre, suf. unfold strip. repeat split; auto.
  - rewrite <- Ht. exact Hs.
  - apply rstrip_starts, lstrip_starts.
  - apply rstrip_ends.
Qed.

Lemma strip_fixed (s : str) :
  starts_with_space s = false -> ends_with_space s = false -> strip s = s.
Proof.
  intros Hs He. unfold strip, rstrip. rewrite (lstrip_fixed s Hs).
  rewrite (lstrip_fixed (rev s) He). apply rev_involutive.
Qed.

Lemma sub_ws_runs_in_run (s : str) :
  sub_ws_runs true s = sub_ws_runs false (lstrip s).
Proof.
  induction s as [|c s IH]; simpl; auto.
  destruct (isspace c) eqn:Hc; simpl; auto. rewrite Hc. reflexivity.
Qed.

Lemma sub_ws_runs_collapsed_aux (n : nat) :
  forall s, (length s <= n)%nat -> collapsed s (sub_ws_runs false s).
Proof.
  induction n as [|n IH]; intros [|c s] Hlen; simpl in *;
    try constructor; try lia.
  destruct (isspace c) eqn:Hc.
  - rewrite sub_ws_runs_in_run.
    destruct (lstrip_split s) as [pre [Hs Hpre]].
    replace (c :: s) with ((c :: pre) ++ lstrip s)
      by (simpl; congruence).
    apply collapsed_run.
    + discriminate.
    + simpl. rewrite Hc, Hpre. reflexivity.
    + apply lstrip_starts.
    + apply IH. pose proof (lstrip_length s). lia.
  - apply collapsed_char; auto. apply IH. lia.
Qed.

Lemma sub_ws_runs_collapsed (s : str) : collapsed s (sub_ws_runs false s).
Proof. apply (sub_ws_runs_collapsed_aux (length s)). lia. Qed.

Lemma ws_run_unique (r1 r2 s1 s2 : str) :
  forallb isspace r1 = true -> forallb isspace r2 = true ->
  starts_with_space s1 = false -> starts_with_space s2 = false ->
  r1 ++ s1 = r2 ++ s2 -> r1 = r2 /\ s1 = s2.
Proof.
  revert r2. induction r1 as [|c r1 IH]; intros [|e r2] H1 H2 Hs1 Hs2 Heq;
    cbn [app forallb] in *.
  - auto.
  - subst s1. cbn [starts_with_space] in Hs1.
    apply andb_true_iff in H2 as [He _]. congruence.
  - subst s2. cbn [starts_with_space] in Hs2.
    apply andb_true_iff in H1 as [Hc _]. congruence.
  - injection Heq as -> Heq.
    apply andb_true_iff in H1 as [_ H1]. apply andb_true_iff in H2 as [_ H2].
    destruct (IH r2 H1 H2 Hs1 Hs2 Heq) as [-> ->]. auto.
Qed.

Lemma collapsed_inv (s b : str) :
  collapsed s b ->
  match s with
  | [] => b = []
  | c :: t =>
      if isspace c
      then exists run rest b',
             s = run ++ rest /\ forallb isspace run = true
             /\ starts_with_space rest = false
             /\ collapsed rest b' /\ b = 32 :: b'
      else exists b', collapsed t b' /\ b = c :: b'
  end.
Proof.
  destruct 1 as [|c s s' Hc Hs|run s s' Hne Hrun Hs Hcol].
  - reflexivity.
  - rewrite Hc. exists s'. auto.
  - destruct run as [|e run]; [contradiction|]. cbn [app].
    pose proof Hrun as Hrun'. cbn [forallb] in Hrun'.
    apply andb_true_iff in Hrun' as [-> _].
    exists (e :: run), s, s'. auto.
Qed.

(** A string has one collapsed form. *)
Lemma collapsed_fun (s a : str) :
  collapsed s a -> forall b, collapsed s b -> a = b.
Proof.
  induction 1 as [|c s a Hc _ IH|run s a Hne Hrun Hs _ IH]; intros b Hb;
    apply collapsed_inv in Hb.
  - symmetry. exact Hb.
  - rewrite Hc in Hb. destruct Hb as (b' & Hb' & ->).
    f_equal. apply IH, Hb'.
  - destruct run as [|e run]; [contradiction|]. cbn [app] in Hb.
    pose proof Hrun as Hrun'. cbn [forallb] in Hrun'.
    apply andb_true_iff in Hrun' as [He _]. rewrite He in Hb.
    destruct Hb as (run' & rest & b' & Heq & Hrun' & Hrest & Hb' & ->).
    change (e :: run ++ s) with ((e :: run) ++ s) in Heq.
    destruct (ws_run_unique (e :: run) run' s rest Hrun Hrun' Hs Hrest Heq)
      as [_ <-].
    f_equal. apply IH, Hb'.
Qed.

Lemma forallb_firstn (f : N -> bool) (k : nat) (l : list N) :
  forallb f l = true -> forallb f (firstn k l) = true.
Proof.
  revert k. induction l as [|x l IH]; intros [|k]; simpl; auto.
  intros H. apply andb_true_iff in H as [-> H]. simpl. auto.
Qed.

Lemma forallb_filter_same (f : N -> bool) (l : list N) :
  forallb f (List.filter f l) = true.
Proof.
  induction l as [|x l IH]; simpl; auto.
  destruct (f x) eqn:Hx; simpl; auto. rewrite Hx. exact IH.
Qed.

End Strings.

(** C7. [clean_nickname] is a total function of its argument; its result
    always matches [^[A-Za-z0-9 _-]{0,20}$]; the empty string (and [None])
    give the empty string; and the result is obtained by trimming the
    surrounding whitespace, collapsing each whitespace run of what is left
    to one space, dropping the characters outside the class and keeping
    the first 20 characters. *)
Theorem clean_nickname_spec (n : option str) :
  matches_nickname_pattern (clean_nickname n) = true
  /\ clean_nickname (Some []) = [] /\ clean_nickname None = []
  /\ exists pre trimmed suf squeezed,
       or_empty n = pre ++ trimmed ++ suf
       /\ forallb isspace pre = true /\ forallb isspace suf = true
       /\ starts_with_space trimmed = false
       /\ ends_with_space trimmed = false
       /\ collapsed trimmed squeezed
       /\ clean_nickname n = firstn 20 (List.filter nickname_char squeezed).
Proof.
  split; [|split; [reflexivity|split; [reflexivity|]]].
  - unfold matches_nickname_pattern, clean_nickname, sub_disallowed.
    apply andb_true_iff. split.
    + apply forallb_firstn, forallb_filter_same.
    + apply Nat.leb_le. apply firstn_le_length.
  - destruct (strip_split (or_empty n)) as (pre & suf & Heq & Hp & Hs & Hb & He).
    exists pre, (strip (or_empty n)), suf,
      (sub_ws_runs false (strip (or_empty n))).
    repeat split; auto. apply sub_ws_runs_collapsed.
Qed.

(** ** Tables with a uniqueness constraint *)

Section Keyed.
Context {R K : Type} `{EqDecision K} (key : R -> K).

Lemma key_elem_of (x : R) (t : list R) : x ∈ t -> key x ∈ List.map key t.
Proof.
  induction 1 as [x t|x y t _ IH]; simpl.
  - apply list_elem_of_here.
  - apply list_elem_of_further, IH.
Qed.

Lemma key_elem_of_inv (k : K) (t : list R) :
  k ∈ List.map key t -> Exists (fun x => key x = k) t.
Proof.
  induction t as [|y t IH]; simpl; intros Hin.
  - inversion Hin.
  - apply elem_of_cons in Hin as [->|Hin].
    + apply Exists_cons_hd. reflexivity.
    + apply Exists_cons_tl, IH, Hin.
Qed.

Lemma filter_key_absent (k : K) (t : list R) :
  ~ Exists (fun x => key x = k) t -> filter (fun x => key x = k) t = [].
Proof.
  induction t as [|y t IH]; intros Hno; [reflexivity|].
  rewrite filter_cons. destruct (decide (key y = k)) as [Hy|Hy].
  - exfalso. apply Hno. apply Exists_cons_hd. exact Hy.
  - apply IH. intros Hex. apply Hno. apply Exists_cons_tl. exact Hex.
Qed.

(** At most one row per key. *)
Lemma filter_key_unique (k : K) (t : list R) :
  NoDup (List.map key t) -> (length (filter (fun x => key x = k) t) <= 1)%nat.
Proof.
  induction t as [|y t IH]; simpl; intros Hnd; [auto|].
  apply NoDup_cons in Hnd as [Hy Hnd].
  rewrite filter_cons. destruct (decide (key y = k)) as [Hk|Hk].
  - rewrite filter_key_absent; [simpl; lia|].
    intros Hex. apply Hy. apply Exists_exists in Hex as (x & Hx & Hkx).
    rewrite Hk, <- Hkx. apply key_elem_of, Hx.
  - apply IH, Hnd.
Qed.

Lemma filter_key_present (k : K) (t : list R) :
  NoDup (List.map key t) -> Exists (fun x => key x = k) t ->
  exists x, filter (fun x => key x = k) t = [x] /\ key x = k.
Proof.
  intros Hnd Hex. pose proof (filter_key_unique k t Hnd) as Hlen.
  apply Exists_exists in Hex as (x & Hx & Hkx).
  assert (Hin : x ∈ filter (fun x => key x = k) t)
    by (apply list_elem_of_filter; auto).
  destruct (filter (fun x => key x = k) t) as [|y [|z l]] eqn:Hf.
  - inversion Hin.
  - exists y. split; [reflexivity|].
    assert (Hy : y ∈ filter (fun x => key x = k) t)
      by (rewrite Hf; apply list_elem_of_here).
    apply list_elem_of_filter in Hy as [Hy _]. exact Hy.
  - simpl in Hlen. lia.
Qed.

(** An UPDATE that leaves the key columns alone. *)
Lemma update_keys (f : R -> R) (t : list R) :
  (forall x, key (f x) = key x) ->
  List.map key (List.map f t) = List.map key t.
Proof.
  intros Hf. induction t as [|y t IH]; simpl; [reflexivity|].
  rewrite Hf, IH. reflexivity.
Qed.

Lemma filter_key_update (f : R -> R) (k : K) (t : list R) :
  (forall x, key (f x) = key x) ->
  filter (fun x => key x = k) (List.map f t)
  = List.map f (filter (fun x => key x = k) t).
Proof.
  intros Hf. induction t as [|y t IH]; simpl; [reflexivity|].
  rewrite !filter_cons, Hf.
  destruct (decide (key y = k)); simpl; rewrite IH; reflexivity.
Qed.

(** An INSERT of a row whose key is free. *)
Lemma insert_keys_nodup (r : R) (t : list R) :
  NoDup (List.map key t) -> ~ Exists (fun x => key x = key r) t ->
  NoDup (List.map key (t ++ [r])).
Proof.
  intros Hnd Hno. rewrite List.map_app. simpl. apply NoDup_app.
  split; [exact Hnd|split].
  - intros k Hk Hin. apply list_elem_of_singleton in Hin as ->.
    apply Hno, key_elem_of_inv, Hk.
  - apply NoDup_singleton.
Qed.
End Keyed.

Section Tables.

Lemma same_log_key_iff (r x : log_row) :
  same_log_key r x <-> log_key x = log_key r.
Proof.
  unfold same_log_key, log_key. split.
  - intros (-> & -> & ->). reflexivity.
  - intros [= -> -> ->]. auto.
Qed.

Lemma same_reflection_key_iff (r x : reflection_row) :
  same_reflection_key r x <-> reflection_key x = reflection_key r.
Proof.
  unfold same_reflection_key, reflection_key. split.
  - intros (-> & ->). reflexivity.
  - intros [= -> ->]. auto.
Qed.

Lemma Exists_same_log_key (r : log_row) (t : list log_row) :
  Exists (same_log_key r) t <-> Exists (fun x => log_key x = log_key r) t.
Proof.
  rewrite !Exists_exists. split; intros (x & Hx & Hk); exists x;
    (split; [exact Hx|]); apply same_log_key_iff; exact Hk.
Qed.

Lemma Exists_same_reflection_key (r : reflection_row) t :
  Exists (same_reflection_key r) t
  <-> Exists (fun x => reflection_key x = reflection_key r) t.
Proof.
  rewrite !Exists_exists. split; intros (x & Hx & Hk); exists x;
    (split; [exact Hx|]); apply same_reflection_key_iff; exact Hk.
Qed.

(** The row that the upsert of [r] writes over an existing row [x]. *)
Lemma upsert_log_update_key (r x : log_row) :
  log_key (if decide (same_log_key r x)
           then LogRow (cl_log_date x) (cl_author x) (cl_challenge_code x)
                  (cl_completed r) (cl_created_at r)
           else x) = log_key x.
Proof. destruct (decide (same_log_key r x)); reflexivity. Qed.

Lemma upsert_reflection_update_key (r x : reflection_row) :
  reflection_key
    (if decide (same_reflection_key r x)
     then ReflectionRow (rf_log_date x) (rf_author x)
            (rf_win r) (rf_stress_shift r) (rf_note r) (rf_created_at r)
     else x) = reflection_key x.
Proof. destruct (decide (same_reflection_key r x)); reflexivity. Qed.

(** The upsert keeps the keys of [challenge_logs] pairwise distinct. *)
Lemma upsert_challenge_log_unique (t : list log_row) (r : log_row) :
  NoDup (List.map log_key t) ->
  NoDup (List.map log_key (upsert_challenge_log t r)).
Proof.
  intros Hnd. unfold upsert_challenge_log.
  destruct (decide (Exists (same_log_key r) t)) as [Hex|Hno].
  - rewrite (update_keys log_key); [exact Hnd|].
    intros x. apply upsert_log_update_key.
  - apply insert_keys_nodup; [exact Hnd|].
    intros Hex. apply Hno, Exists_same_log_key, Hex.
Qed.

Lemma upsert_daily_reflection_unique (t : list reflection_row) r :
  NoDup (List.map reflection_key t) ->
  NoDup (List.map reflection_key (upsert_daily_reflection t r)).
Proof.
  intros Hnd. unfold upsert_daily_reflection.
  destruct (decide (Exists (same_reflection_key r) t)) as [Hex|Hno].
  - rewrite (update_keys reflection_key); [exact Hnd|].
    intros x. apply upsert_reflection_update_key.
  - apply insert_keys_nodup; [exact Hnd|].
    intros Hex. apply Hno, Exists_same_reflection_key, Hex.
Qed.

(** After the upsert of [r], the rows under the key of [r] are exactly one
    row, holding the [completed] and [created_at] of [r]. *)
Lemma upsert_challenge_log_at (t : list log_row) (r : log_row) :
  NoDup (List.map log_key t) ->
  filter (fun x => log_key x = log_key r) (upsert_challenge_log t r) = [r].
Proof.
  intros Hnd. unfold upsert_challenge_log.
  destruct (decide (Exists (same_log_key r) t)) as [Hex|Hno].
  - rewrite (filter_key_update log_key)
      by (intros x; apply upsert_log_update_key).
    apply Exists_same_log_key in Hex.
    destruct (filter_key_present log_key _ t Hnd Hex) as (x & -> & Hk).
    simpl. destruct (decide (same_log_key r x)) as [Hs|Hs].
    + destruct r, x. unfold log_key in Hk. simpl in *. congruence.
    + exfalso. apply Hs, same_log_key_iff, Hk.
  - rewrite filter_app, filter_key_absent.
    + simpl. rewrite filter_cons, decide_True by reflexivity. reflexivity.
    + intros Hex. apply Hno, Exists_same_log_key, Hex.
Qed.

End Tables.

(** ** The uniqueness constraints are invariants *)

Lemma Returned_inj {A : Type} (a b : A) : Returned a = Returned b -> a = b.
Proof. intros H. injection H as ->. reflexivity. Qed.

Section Invariants.

Lemma seed_unique (ds t : list challenge_row) :
  NoDup (List.map ch_code t) ->
  NoDup (List.map ch_code (fold_left insert_or_ignore_challenge ds t)).
Proof.
  revert t. induction ds as [|r ds IH]; intros t Hnd; simpl; [exact Hnd|].
  apply IH. unfold insert_or_ignore_challenge.
  destruct (decide (Exists (fun x => ch_code x = ch_code r) t)) as [Hex|Hno].
  - exact Hnd.
  - apply insert_keys_nodup; assumption.
Qed.

Lemma init_db_returns (db : database) :
  init_db (Available db)
  = Returned (Database (posts db) (replies db)
                (fold_left insert_or_ignore_challenge default_challenges
                   (challenges db))
                (challenge_logs db) (daily_reflections db)).
Proof. unfold init_db. run_conn. reflexivity. Qed.

Lemma set_challenge_completion_returns clk db author log_date code completed :
  set_challenge_completion clk (Available db) author log_date code completed
  = Returned (Database (posts db) (replies db) (challenges db)
                (upsert_challenge_log (challenge_logs db)
                   (LogRow log_date author code completed (now_str clk)))
                (daily_reflections db)).
Proof. unfold set_challenge_completion. run_conn. reflexivity. Qed.

Lemma save_reflection_returns clk db author log_date w s n :
  save_reflection clk (Available db) author log_date w s n
  = Returned (Database (posts db) (replies db) (challenges db)
                (challenge_logs db)
                (upsert_daily_reflection (daily_reflections db)
                   (ReflectionRow log_date author (Some (strip w))
                      (Some (strip s)) (Some (strip n)) (now_str clk)))).
Proof. unfold save_reflection. run_conn. reflexivity. Qed.

(** What a returning [add_reply] has written. *)
Lemma add_reply_inv clk db post_id author body db' :
  add_reply clk (Available db) post_id author body = Returned db' ->
  sqlite_integer post_id = true
  /\ db' = Database (posts db)
             (replies db
                ++ [ReplyRow post_id (now_str clk) author (strip body)])
             (challenges db) (challenge_logs db) (daily_reflections db).
Proof.
  unfold add_reply. cbn [get_conn mbind outcome_bind].
  destruct (sqlite_integer post_id); [|discriminate].
  intros H. apply Returned_inj in H. auto.
Qed.

(** Every writing operation keeps the three constraints. *)
Lemma exec_call_constraints clk db c db' :
  constraints_hold db -> exec_call clk (Available db) c = Returned db' ->
  constraints_hold db'.
Proof.
  intros (Hl & Hr & Hc) Hrun. destruct c; cbn [exec_call] in Hrun.
  - rewrite init_db_returns in Hrun. apply Returned_inj in Hrun. subst db'.
    repeat split; auto. apply seed_unique, Hc.
  - unfold add_post in Hrun. run_conn. apply Returned_inj in Hrun. subst db'.
    repeat split; auto.
  - apply add_reply_inv in Hrun as [_ ->]. repeat split; auto.
  - rewrite set_challenge_completion_returns in Hrun. apply Returned_inj in Hrun. subst db'.
    repeat split; auto. apply upsert_challenge_log_unique, Hl.
  - rewrite save_reflection_returns in Hrun. apply Returned_inj in Hrun. subst db'.
    repeat split; auto. apply upsert_daily_reflection_unique, Hr.
Qed.

Lemma empty_db_constraints : constraints_hold empty_db.
Proof. repeat split; apply NoDup_nil_2. Qed.

Lemma reachable_constraints (db : database) :
  reachable db -> constraints_hold db.
Proof.
  induction 1 as [db Hinit|db clk c db' _ IH Hrun].
  - rewrite init_db_returns in Hinit. apply Returned_inj in Hinit. subst db.
    repeat split; try apply NoDup_nil_2. apply seed_unique, NoDup_nil_2.
  - exact (exec_call_constraints clk db c db' IH Hrun).
Qed.

End Invariants.

(** C4. In every reachable state of the database there is at most one
    [challenge_logs] row per (log_date, author, challenge_code) and at
    most one [daily_reflections] row per (log_date, author): every
    writing operation of the program preserves the two constraints. *)
Theorem reachable_rows_unique (db : database) :
  reachable db ->
  (forall log_date author challenge_code,
      (length (logs_at db log_date author challenge_code) <= 1)%nat)
  /\ (forall log_date author,
        (length (reflections_at db log_date author) <= 1)%nat).
Proof.
  intros Hreach. destruct (reachable_constraints db Hreach) as (Hl & Hr & _).
  split.
  - intros d a c. apply (filter_key_unique log_key), Hl.
  - intros d a. apply (filter_key_unique reflection_key), Hr.
Qed.

(** ** Completion logs: last write wins *)

Section Completions.

Lemma set_challenge_completion_unique clk db author log_date code completed db' :
  unique_logs db ->
  set_challenge_completion clk (Available db) author log_date code completed
  = Returned db' ->
  unique_logs db'
  /\ logs_at db' log_date author code
     = [LogRow log_date author code completed (now_str clk)].
Proof.
  intros Hl Hrun. rewrite set_challenge_completion_returns in Hrun.
  apply Returned_inj in Hrun. subst db'. unfold unique_logs, logs_at.
  cbn [challenge_logs]. split.
  - apply upsert_challenge_log_unique, Hl.
  - apply (upsert_challenge_log_at (challenge_logs db)
             (LogRow log_date author code completed (now_str clk))), Hl.
Qed.

(** Whatever calls came before for the key, the row is the one written by
    the last call. *)
Lemma set_completions_last calls :
  forall db author log_date code clk checked,
    unique_logs db ->
    exists db',
      set_completions db author log_date code (calls ++ [(clk, checked)])
      = Returned db'
      /\ unique_logs db'
      /\ logs_at db' log_date author code
         = [LogRow log_date author code (Z.b2z checked) (now_str clk)].
Proof.
  induction calls as [|[clk0 b0] calls IH]; intros db a d c clk b Hl;
    cbn [set_completions app].
  - rewrite set_challenge_completion_returns. cbn [mbind outcome_bind].
    eexists. split; [reflexivity|].
    eapply set_challenge_completion_unique; [exact Hl|].
    apply set_challenge_completion_returns.
  - rewrite set_challenge_completion_returns. cbn [mbind outcome_bind].
    apply IH.
    eapply set_challenge_completion_unique; [exact Hl|].
    apply set_challenge_completion_returns.
Qed.

End Completions.

(** C3. For every key (log_date, author, challenge_code), after any
    sequence of [set_challenge_completion] calls for that key on a
    reachable database, the table holds exactly one row under the key and
    its [completed] field is the value of the last call.  Two calls with
    [true] leave one row with [completed = 1]; [true] then [false] leaves
    [completed = 0]. *)
Theorem set_completion_last_write_wins db author log_date challenge_code
    calls clk checked :
  reachable db ->
  exists db',
    set_completions db author log_date challenge_code
      (calls ++ [(clk, checked)]) = Returned db'
    /\ exists row,
         logs_at db' log_date author challenge_code = [row]
         /\ cl_completed row = Z.b2z checked.
Proof.
  intros Hreach. destruct (reachable_constraints db Hreach) as (Hl & _).
  destruct (set_completions_last calls db author log_date challenge_code
              clk checked Hl) as (db' & Hrun & _ & Hat).
  exists db'. split; [exact Hrun|]. eexists. split; [exact Hat|reflexivity].
Qed.

(** C2, as the program has it.  [set_challenge_completion] validates
    nothing: on a reachable store it returns for every author (the empty
    string included) and every [log_date] text (a calendar date or not),
    and the row is stored under the key as given; the only failure is the
    store's own error when the file cannot be opened. *)
Theorem set_challenge_completion_outcome clk s author log_date
    challenge_code (checked : bool) :
  match s with
  | Available db =>
      exists db',
        set_challenge_completion clk s author log_date challenge_code
          (Z.b2z checked) = Returned db'
        /\ LogRow log_date author challenge_code (Z.b2z checked) (now_str clk)
           ∈ challenge_logs db'
  | Unavailable =>
      set_challenge_completion clk s author log_date challenge_code
        (Z.b2z checked) = Raised OperationalError
  end.
Proof.
  destruct s as [|db]; [reflexivity|].
  rewrite set_challenge_completion_returns. eexists. split; [reflexivity|].
  cbn [challenge_logs]. unfold upsert_challenge_log.
  set (r := LogRow log_date author challenge_code (Z.b2z checked) (now_str clk)).
  destruct (decide (Exists (same_log_key r) (challenge_logs db))) as [Hex|Hno].
  - apply Exists_exists in Hex as (x & Hx & Hk).
    apply list_elem_of_In, in_map_iff. exists x. split.
    + rewrite decide_True by exact Hk.
      destruct Hk as (Hd & Ha & Hc). rewrite Hd, Ha, Hc. reflexivity.
    + apply list_elem_of_In, Hx.
  - apply elem_of_app. right. apply list_elem_of_here.
Qed.

(** The text of a date starts with a decimal digit. *)
Lemma strftime_ymd_head (d : date) :
  exists c rest, strftime_ymd d = c :: rest /\ 48 <= c <= 57.
Proof.
  assert (Hdigit : forall n, 48 <= digit n <= 57).
  { intros n. unfold digit. pose proof (N.mod_lt n 10 ltac:(lia)) as H.
    generalize dependent (n mod 10). intros; lia. }
  unfold strftime_ymd, dec_year, dec2, dec4.
  destruct (year d <? 10); [|destruct (year d <? 100);
                              [|destruct (year d <? 1000)]];
    cbn [app]; eexists _, _; (split; [reflexivity|apply Hdigit]).
Qed.

(** C2, as the claim has it, fails: with the empty author and a
    [log_date] that is no calendar date the call returns and stores the
    row. *)
Lemma set_challenge_completion_accepts_invalid :
  let author : str := [] in
  let log_date : str := py "not-a-date" in
  ~ valid_date_string log_date
  /\ set_challenge_completion (Clock (Date 2024 1 3) 9 5) (Available empty_db)
       author log_date (py "MOVE_10") 1
     = Returned (Database [] [] []
                   [LogRow (py "not-a-date") [] (py "MOVE_10") 1
                      (py "2024-01-03 09:05")] []).
Proof.
  split.
  - intros (d & _ & Hd).
    destruct (strftime_ymd_head d) as (c & rest & Hc & Hdigit).
    rewrite Hc in Hd. clear Hc.
    assert (Hn : py "not-a-date" = 110 :: tl (py "not-a-date"))
      by (vm_compute; reflexivity).
    rewrite Hn in Hd. injection Hd as Hd _. lia.
  - vm_compute. reflexivity.
Qed.

(** ** Daily reflections *)

Section Reflections.

Lemma reflection_filter_iff (author log_date : str) (t : list reflection_row) :
  filter (fun x => rf_author x = author /\ rf_log_date x = log_date) t
  = filter (fun x => reflection_key x = (log_date, author)) t.
Proof.
  apply list_filter_iff. intros x. unfold reflection_key. split.
  - intros [-> ->]. reflexivity.
  - intros [= -> ->]. auto.
Qed.

(** The first row under the key of [r] after the upsert of [r] carries
    the three texts of [r], whatever the table held before. *)
Lemma upsert_daily_reflection_first (t : list reflection_row) r k :
  reflection_key r = k ->
  exists x rest,
    filter (fun x => reflection_key x = k) (upsert_daily_reflection t r)
    = x :: rest
    /\ rf_win x = rf_win r /\ rf_stress_shift x = rf_stress_shift r
    /\ rf_note x = rf_note r.
Proof.
  intros <-. unfold upsert_daily_reflection.
  destruct (decide (Exists (same_reflection_key r) t)) as [Hex|Hno].
  - rewrite (filter_key_update reflection_key)
      by (intros x; apply upsert_reflection_update_key).
    apply Exists_exists in Hex as (y & Hy & Hk).
    assert (Hin : y ∈ filter (fun x => reflection_key x = reflection_key r) t).
    { apply list_elem_of_filter. split; [|exact Hy].
      apply same_reflection_key_iff, Hk. }
    destruct (filter (fun x => reflection_key x = reflection_key r) t)
      as [|x rest] eqn:Hf; [inversion Hin|].
    assert (Hx : x ∈ filter (fun x => reflection_key x = reflection_key r) t)
      by (rewrite Hf; apply list_elem_of_here).
    apply list_elem_of_filter in Hx as [Hx _].
    apply same_reflection_key_iff in Hx.
    cbn [List.map]. rewrite decide_True by exact Hx.
    eexists _, _. split; [reflexivity|]. auto.
  - rewrite filter_app, filter_key_absent.
    + cbn [app]. rewrite filter_cons, decide_True by reflexivity.
      eexists _, _. split; [reflexivity|]. auto.
    + intros Hex. apply Hno, Exists_same_reflection_key, Hex.
Qed.

(** Reading back what was just saved gives the three stripped texts. *)
Lemma fetch_after_save clk db author log_date w s n :
  exists db',
    save_reflection clk (Available db) author log_date w s n = Returned db'
    /\ fetch_reflection (Available db') author log_date
       = Returned (Reflection (strip w) (strip s) (strip n)).
Proof.
  rewrite save_reflection_returns. eexists. split; [reflexivity|].
  unfold fetch_reflection. run_conn. cbn [daily_reflections].
  rewrite reflection_filter_iff.
  destruct (upsert_daily_reflection_first (daily_reflections db)
              (ReflectionRow log_date author (Some (strip w))
                 (Some (strip s)) (Some (strip n)) (now_str clk))
              (log_date, author) eq_refl)
    as (x & rest & Hf & Hw & Hs & Hn).
  rewrite Hf, Hw, Hs, Hn. reflexivity.
Qed.

Lemma fetch_absent db author log_date :
  (forall x, x ∈ daily_reflections db ->
             ~ (rf_author x = author /\ rf_log_date x = log_date)) ->
  fetch_reflection (Available db) author log_date
  = Returned (Reflection [] [] []).
Proof.
  intros Hno. unfold fetch_reflection. run_conn.
  destruct (filter _ (daily_reflections db)) as [|x rest] eqn:Hf;
    [reflexivity|].
  assert (Hx : x ∈ filter (fun x => rf_author x = author
                                    /\ rf_log_date x = log_date)
                      (daily_reflections db))
    by (rewrite Hf; apply list_elem_of_here).
  apply list_elem_of_filter in Hx as [Hk Hx]. destruct (Hno x Hx Hk).
Qed.

End Reflections.

(** C5. For every user and date, saving the reflection ("a", "b", "c")
    and reading it back returns exactly win "a", stress_shift "b" and
    note "c"; when there is no row for the user and date,
    [fetch_reflection] returns three empty strings and does not fail. *)
Theorem reflection_round_trip clk db author log_date :
  (exists db',
      save_reflection clk (Available db) author log_date
        (py "a") (py "b") (py "c") = Returned db'
      /\ fetch_reflection (Available db') author log_date
         = Returned (Reflection (py "a") (py "b") (py "c")))
  /\ ((forall x, x ∈ daily_reflections db ->
                 ~ (rf_author x = author /\ rf_log_date x = log_date)) ->
      fetch_reflection (Available db) author log_date
      = Returned (Reflection [] [] [])).
Proof.
  split.
  - exact (fetch_after_save clk db author log_date (py "a") (py "b") (py "c")).
  - apply fetch_absent.
Qed.

(** C10. [save_reflection] strips the leading and trailing whitespace of
    the three texts before it stores them: whatever is saved, reading it
    back returns the stripped texts (what is left of each text once a
    whitespace prefix and a whitespace suffix are removed); saving " a "
    reads back as "a". *)
Theorem save_reflection_strips clk db author log_date w s n :
  (exists db',
      save_reflection clk (Available db) author log_date w s n = Returned db'
      /\ fetch_reflection (Available db') author log_date
         = Returned (Reflection (strip w) (strip s) (strip n)))
  /\ Forall (fun t : str =>
               exists pre suf,
                 t = pre ++ strip t ++ suf
                 /\ forallb isspace pre = true /\ forallb isspace suf = true
                 /\ starts_with_space (strip t) = false
                 /\ ends_with_space (strip t) = false) [w; s; n]
  /\ strip (py " a ") = py "a".
Proof.
  split; [apply fetch_after_save|split; [|reflexivity]].
  repeat constructor; apply strip_split.
Qed.

(** ** Seeding the challenge catalogue *)

Section Seeding.

Lemma seed_prefix (ds t : list challenge_row) :
  t `prefix_of` fold_left insert_or_ignore_challenge ds t.
Proof.
  revert t. induction ds as [|r ds IH]; intros t; cbn [fold_left].
  - reflexivity.
  - etransitivity; [|apply IH]. unfold insert_or_ignore_challenge.
    destruct (decide (Exists (fun x => ch_code x = ch_code r) t)).
    + reflexivity.
    + apply prefix_app_r. reflexivity.
Qed.

Lemma Exists_prefix (P : challenge_row -> Prop) (t t' : list challenge_row) :
  t `prefix_of` t' -> Exists P t -> Exists P t'.
Proof. intros [k ->] Hex. apply Exists_app. left. exact Hex. Qed.

(** After the loop every seeded code is in the table. *)
Lemma seed_present (ds t : list challenge_row) (r : challenge_row) :
  r ∈ ds ->
  Exists (fun x => ch_code x = ch_code r)
    (fold_left insert_or_ignore_challenge ds t).
Proof.
  revert t. induction ds as [|r0 ds IH]; intros t Hin; [inversion Hin|].
  cbn [fold_left]. apply elem_of_cons in Hin as [->|Hin]; [|apply IH, Hin].
  eapply Exists_prefix; [apply seed_prefix|].
  unfold insert_or_ignore_challenge.
  destruct (decide (Exists (fun x => ch_code x = ch_code r0) t)) as [Hex|Hno].
  - exact Hex.
  - apply Exists_app. right. apply Exists_cons_hd. reflexivity.
Qed.

(** When every code to seed is taken, the loop changes nothing. *)
Lemma seed_ignored (ds t : list challenge_row) :
  (forall r, r ∈ ds -> Exists (fun x => ch_code x = ch_code r) t) ->
  fold_left insert_or_ignore_challenge ds t = t.
Proof.
  induction ds as [|r ds IH]; intros Hall; cbn [fold_left]; [reflexivity|].
  unfold insert_or_ignore_challenge at 2.
  rewrite decide_True by (apply Hall, list_elem_of_here).
  apply IH. intros r' Hr'. apply Hall, list_elem_of_further, Hr'.
Qed.

Lemma init_db_times_seeded (n : nat) (db : database) :
  (forall r, r ∈ default_challenges ->
             Exists (fun x => ch_code x = ch_code r) (challenges db)) ->
  init_db_times n db = Returned db.
Proof.
  intros Hall. induction n as [|n IH]; cbn [init_db_times]; [reflexivity|].
  rewrite init_db_returns. cbn [mbind outcome_bind].
  rewrite (seed_ignored _ _ Hall). destruct db. exact IH.
Qed.

End Seeding.

(** C8. The seeding of [init_db] is insert-if-absent by [code]: on a
    table that respects [code UNIQUE], running it once or any number of
    times more leaves exactly one row for each default code, and every
    row that was there before, a row with a default code included, is
    still the only row under its code, unchanged. *)
Theorem seed_defaults_idempotent (n : nat) (db : database) :
  unique_codes db ->
  exists db',
    init_db_times (S n) db = Returned db'
    /\ (forall r, r ∈ default_challenges ->
                  length (challenges_at db' (ch_code r)) = 1%nat)
    /\ (forall x, x ∈ challenges db -> challenges_at db' (ch_code x) = [x])
    /\ init_db (Available db') = Returned db'.
Proof.
  intros Hc. cbn [init_db_times]. rewrite init_db_returns.
  cbn [mbind outcome_bind].
  pose proof (seed_unique default_challenges (challenges db) Hc) as Hnd.
  pose proof (seed_prefix default_challenges (challenges db)) as Hpre.
  pose proof (fun r => seed_present default_challenges (challenges db) r)
    as Hall.
  remember (fold_left insert_or_ignore_challenge default_challenges
              (challenges db)) as t' eqn:Ht'.
  clear Ht'.
  exists (Database (posts db) (replies db) t' (challenge_logs db)
            (daily_reflections db)).
  split; [|split; [|split]].
  - apply init_db_times_seeded. exact Hall.
  - intros r Hr.
    destruct (filter_key_present ch_code (ch_code r) t' Hnd (Hall r Hr))
      as (x & Hf & _).
    unfold challenges_at. cbn [challenges]. rewrite Hf. reflexivity.
  - intros x Hx. destruct Hpre as [k Hk].
    assert (Hx' : x ∈ t') by (rewrite Hk; apply elem_of_app; left; exact Hx).
    assert (Hex : Exists (fun y => ch_code y = ch_code x) t')
      by (apply Exists_exists; exists x; auto).
    destruct (filter_key_present ch_code (ch_code x) t' Hnd Hex)
      as (y & Hf & _).
    unfold challenges_at. cbn [challenges]. rewrite Hf.
    assert (Hin : x ∈ filter (fun y => ch_code y = ch_code x) t')
      by (apply list_elem_of_filter; auto).
    rewrite Hf in Hin. apply list_elem_of_singleton in Hin as ->. reflexivity.
  - rewrite init_db_returns. cbn [posts replies challenges challenge_logs
                                    daily_reflections].
    rewrite (seed_ignored default_challenges t' Hall). reflexivity.
Qed.

(** ** The order of TEXT values and of dates *)

Section Order.

Lemma str_compare_eq (a b : str) : str_compare a b = Eq <-> a = b.
Proof.
  revert b. induction a as [|x a IH]; intros [|y b]; cbn [str_compare];
    try (split; [discriminate|discriminate]); [tauto|].
  destruct (N.compare_spec x y) as [->|Hlt|Hgt].
  - rewrite IH. split; [intros ->; reflexivity|intros [= ->]; reflexivity].
  - split; [discriminate|]. intros [= -> _]. lia.
  - split; [discriminate|]. intros [= -> _]. lia.
Qed.

Lemma str_compare_antisym (a b : str) :
  str_compare b a = CompOpp (str_compare a b).
Proof.
  revert b. induction a as [|x a IH]; intros [|y b]; cbn [str_compare];
    try reflexivity.
  rewrite (N.compare_antisym x y).
  destruct (x ?= y); cbn [CompOpp]; auto.
Qed.

Lemma str_leb_refl (a : str) : str_leb a a = true.
Proof.
  unfold str_leb. replace (str_compare a a) with Eq; [reflexivity|].
  symmetry. apply str_compare_eq. reflexivity.
Qed.

(** [x >= s AND x <= s] holds of [s] alone. *)
Lemma str_leb_both (s x : str) :
  str_leb s x = true /\ str_leb x s = true <-> x = s.
Proof.
  split.
  - unfold str_leb. rewrite (str_compare_antisym s x).
    destruct (str_compare s x) eqn:Hc; cbn [CompOpp]; intros [H1 H2];
      try discriminate.
    symmetry. apply str_compare_eq, Hc.
  - intros ->. split; apply str_leb_refl.
Qed.

Lemma str_compare_app (x y a b : str) :
  length x = length y ->
  str_compare (x ++ a) (y ++ b)
  = match str_compare x y with Eq => str_compare a b | c => c end.
Proof.
  revert y. induction x as [|c x IH]; intros [|e y] Hlen;
    try discriminate Hlen; cbn [app str_compare]; [reflexivity|].
  destruct (c ?= e); auto.
Qed.

(** Four zero-padded digits compare as the numbers they write. *)
Lemma digits4_compare (a3 a2 a1 a0 b3 b2 b1 b0 : N) :
  a2 < 10 -> a1 < 10 -> a0 < 10 -> b2 < 10 -> b1 < 10 -> b0 < 10 ->
  str_compare [48 + a3; 48 + a2; 48 + a1; 48 + a0]
    [48 + b3; 48 + b2; 48 + b1; 48 + b0]
  = (1000 * a3 + 100 * a2 + 10 * a1 + a0
     ?= 1000 * b3 + 100 * b2 + 10 * b1 + b0).
Proof.
  intros. cbn [str_compare]. symmetry.
  destruct (N.compare_spec (48 + a3) (48 + b3));
    [destruct (N.compare_spec (48 + a2) (48 + b2));
     [destruct (N.compare_spec (48 + a1) (48 + b1));
      [destruct (N.compare_spec (48 + a0) (48 + b0))|..]|..]|..];
    first [apply N.compare_eq_iff|apply N.compare_lt_iff|apply N.compare_gt_iff];
    lia.
Qed.

Lemma digits2_compare (a1 a0 b1 b0 : N) :
  a0 < 10 -> b0 < 10 ->
  str_compare [48 + a1; 48 + a0] [48 + b1; 48 + b0]
  = (10 * a1 + a0 ?= 10 * b1 + b0).
Proof.
  intros. cbn [str_compare]. symmetry.
  destruct (N.compare_spec (48 + a1) (48 + b1));
    [destruct (N.compare_spec (48 + a0) (48 + b0))|..];
    first [apply N.compare_eq_iff|apply N.compare_lt_iff|apply N.compare_gt_iff];
    lia.
Qed.

Lemma dec4_digits (n : N) :
  n < 10000 ->
  exists a3 a2 a1 a0,
    dec4 n = [48 + a3; 48 + a2; 48 + a1; 48 + a0]
    /\ n = 1000 * a3 + 100 * a2 + 10 * a1 + a0
    /\ a3 < 10 /\ a2 < 10 /\ a1 < 10 /\ a0 < 10.
Proof.
  intros Hn.
  exists ((n / 1000) mod 10), ((n / 100) mod 10), ((n / 10) mod 10), (n mod 10).
  split; [reflexivity|].
  zify. Z.to_euclidean_division_equations. lia.
Qed.

Lemma dec2_digits (n : N) :
  n < 100 ->
  exists a1 a0,
    dec2 n = [48 + a1; 48 + a0] /\ n = 10 * a1 + a0 /\ a1 < 10 /\ a0 < 10.
Proof.
  intros Hn. exists ((n / 10) mod 10), (n mod 10).
  split; [reflexivity|].
  zify. Z.to_euclidean_division_equations. lia.
Qed.

Lemma dec4_compare (a b : N) :
  a < 10000 -> b < 10000 -> str_compare (dec4 a) (dec4 b) = (a ?= b).
Proof.
  intros Ha Hb.
  destruct (dec4_digits a Ha) as (a3 & a2 & a1 & a0 & -> & -> & ?).
  destruct (dec4_digits b Hb) as (b3 & b2 & b1 & b0 & -> & -> & ?).
  apply digits4_compare; lia.
Qed.

Lemma dec2_compare (a b : N) :
  a < 100 -> b < 100 -> str_compare (dec2 a) (dec2 b) = (a ?= b).
Proof.
  intros Ha Hb.
  destruct (dec2_digits a Ha) as (a1 & a0 & -> & -> & ?).
  destruct (dec2_digits b Hb) as (b1 & b0 & -> & -> & ?).
  apply digits2_compare; lia.
Qed.

Lemma days_in_month_bounds (y m : N) :
  28 <= days_in_month y m <= 31.
Proof.
  unfold days_in_month.
  destruct (m =? 2); [destruct (is_leap y); lia|].
  destruct ((m =? 4) || (m =? 6) || (m =? 9) || (m =? 11)); lia.
Qed.

Lemma date_ok_bounds (d : date) :
  date_ok d = true ->
  1 <= year d <= 9999 /\ 1 <= month d <= 12
  /\ 1 <= day d <= days_in_month (year d) (month d).
Proof.
  unfold date_ok. rewrite !andb_true_iff, !N.leb_le. tauto.
Qed.

(** From year 1000 on the year is written on four digits. *)
Lemma dec_year_four (y : N) : 1000 <= y -> dec_year y = dec4 y.
Proof.
  intros Hy. unfold dec_year.
  destruct (N.ltb_spec y 10); [lia|]. destruct (N.ltb_spec y 100); [lia|].
  destruct (N.ltb_spec y 1000); [lia|]. reflexivity.
Qed.

(** From year 1000 on, the texts of two dates are ordered as the dates
    are. *)
Lemma strftime_ymd_compare (a b : date) :
  date_ok a = true -> date_ok b = true ->
  1000 <= year a -> 1000 <= year b ->
  str_compare (strftime_ymd a) (strftime_ymd b) = date_compare a b.
Proof.
  intros Ha Hb Hya Hyb. apply date_ok_bounds in Ha, Hb.
  pose proof (days_in_month_bounds (year a) (month a)).
  pose proof (days_in_month_bounds (year b) (month b)).
  unfold strftime_ymd, date_compare. rewrite !dec_year_four by assumption.
  rewrite str_compare_app by reflexivity.
  rewrite dec4_compare by lia. destruct (year a ?= year b); auto.
  rewrite (str_compare_app [45] [45]) by reflexivity.
  cbn [str_compare]. rewrite N.compare_refl.
  rewrite str_compare_app by reflexivity.
  rewrite dec2_compare by lia. destruct (month a ?= month b); auto.
  rewrite (str_compare_app [45] [45]) by reflexivity.
  cbn [str_compare]. rewrite N.compare_refl.
  apply dec2_compare; lia.
Qed.

Lemma strftime_ymd_leb (a b : date) :
  date_ok a = true -> date_ok b = true ->
  1000 <= year a -> 1000 <= year b ->
  str_leb (strftime_ymd a) (strftime_ymd b) = date_leb a b.
Proof.
  intros Ha Hb Hya Hyb. unfold str_leb, date_leb.
  rewrite strftime_ymd_compare by assumption. reflexivity.
Qed.

(** Below year 1000 the order of the texts is not the order of the
    dates: ['999-12-31'] sorts after ['1000-01-01']. *)
Lemma strftime_ymd_leb_short_year :
  date_leb (Date 999 12 31) (Date 1000 1 1) = true
  /\ str_leb (strftime_ymd (Date 999 12 31)) (strftime_ymd (Date 1000 1 1))
     = false.
Proof. split; vm_compute; reflexivity. Qed.

End Order.

(** C9. For every user and date, the daily total on the date equals the
    windowed count over the range that starts and ends on the date: both
    count the [completed = 1] rows of the user one by one. *)
Theorem daily_total_is_degenerate_range (s : store) (author : str) (d : date) :
  daily_completion_total s author (strftime_ymd d)
  = completed_count_in_range s author d d.
Proof.
  unfold daily_completion_total, completed_count_in_range.
  destruct s as [|db]; [reflexivity|]. run_conn.
  do 3 f_equal. apply list_filter_iff. intros x.
  rewrite (str_leb_both (strftime_ymd d) (cl_log_date x)). tauto.
Qed.

(** ** Counting completed rows in a range of dates *)

Section Counting.

Lemma digit_value_digit (n : N) : digit_value (digit n) = Some (n mod 10).
Proof.
  unfold digit_value, digit.
  assert (Hlt : n mod 10 < 10) by (apply N.mod_lt; lia).
  generalize dependent (n mod 10). intros r Hlt.
  replace ((48 <=? 48 + r) && (48 + r <=? 57)) with true.
  - f_equal. lia.
  - symmetry. apply andb_true_iff. rewrite !N.leb_le. lia.
Qed.

(** Reading the text of a date of a year from 1000 on gives the date
    back. *)
Lemma parse_strftime_ymd (d : date) :
  date_ok d = true -> 1000 <= year d -> parse_ymd (strftime_ymd d) = Some d.
Proof.
  intros Hok Hyear. pose proof (date_ok_bounds d Hok) as (Hy & Hm & Hd).
  pose proof (days_in_month_bounds (year d) (month d)).
  unfold strftime_ymd. rewrite dec_year_four by assumption.
  unfold dec4, dec2. cbn [app]. unfold parse_ymd.
  change ((45 =? 45) && (45 =? 45)) with true. cbv iota.
  rewrite !digit_value_digit. cbn [mbind option_bind].
  replace (Date _ _ _) with d.
  - rewrite Hok. reflexivity.
  - destruct d as [y m dd]. cbn [year month day] in *. f_equal;
      zify; Z.to_euclidean_division_equations; lia.
Qed.

Lemma filter_iff_Forall {A : Type} (P Q : A -> Prop)
    `{!forall x, Decision (P x)} `{!forall x, Decision (Q x)} (l : list A) :
  Forall (fun x => P x <-> Q x) l -> filter P l = filter Q l.
Proof.
  induction 1 as [|x l Hx _ IH]; [reflexivity|].
  rewrite !filter_cons, IH.
  destruct (decide (P x)), (decide (Q x)); tauto.
Qed.

(** A date that is not before another is not of an earlier year. *)
Lemma date_leb_year (a b : date) : date_leb a b = true -> year a <= year b.
Proof.
  unfold date_leb, date_compare.
  destruct (N.compare_spec (year a) (year b)); [lia|lia|discriminate].
Qed.

End Counting.

(** C6. [completed_count_in_range] counts rows: for dates of the years
    from 1000 on, where [strftime] writes the year on four digits, and
    stored dates that are the texts of such calendar dates, its result is
    the number of [challenge_logs] rows of the user with [completed = 1]
    whose date lies between [start_date] and [end_date], both ends
    included; three rows of one day inside the range count for three, not
    for one day. *)
Theorem completed_count_in_range_counts_rows db author start_date end_date :
  date_ok start_date = true -> date_ok end_date = true ->
  1000 <= year start_date -> 1000 <= year end_date -> well_dated db ->
  completed_count_in_range (Available db) author start_date end_date
  = Returned (Z.of_nat
                (length (completed_rows_between db author start_date end_date)))
  /\ forall d c1 c2 c3 t1 t2 t3,
       date_ok d = true ->
       date_leb start_date d = true -> date_leb d end_date = true ->
       completed_count_in_range
         (Available (Database [] [] []
                       [LogRow (strftime_ymd d) author c1 1 t1;
                        LogRow (strftime_ymd d) author c2 1 t2;
                        LogRow (strftime_ymd d) author c3 1 t3] []))
         author start_date end_date = Returned 3%Z.
Proof.
  intros Hs He Hys Hye Hwd. split.
  - unfold completed_count_in_range, completed_rows_between. run_conn.
    do 3 f_equal. apply filter_iff_Forall.
    eapply Forall_impl; [exact Hwd|]. intros x (d & Hd & Hyd & Hx). cbv beta.
    rewrite Hx, (parse_strftime_ymd d Hd Hyd). cbn [from_option].
    rewrite !strftime_ymd_leb by assumption.
    rewrite andb_true_iff. tauto.
  - intros d c1 c2 c3 t1 t2 t3 Hd Hsd Hde.
    assert (Hyd : 1000 <= year d) by (apply date_leb_year in Hsd; lia).
    unfold completed_count_in_range. run_conn. cbn [challenge_logs].
    rewrite !filter_cons, filter_nil. cbn [cl_author cl_completed cl_log_date].
    rewrite !strftime_ymd_leb by assumption.
    rewrite !decide_True by auto. reflexivity.
Qed.

(** ** The streak *)

Section Streak.

Lemma date_sub_one_day_raises (d : date) (e : exn) :
  date_sub_one_day d = Raised e -> e = OverflowError.
Proof.
  unfold date_sub_one_day.
  destruct (1 <? day d); [discriminate|].
  destruct (1 <? month d); [discriminate|].
  destruct (1 <? year d); [discriminate|].
  intros [= <-]. reflexivity.
Qed.

(** One day back from a date is a date again, and is closer to
    [date.min]. *)
Lemma date_sub_one_day_ok (d d' : date) :
  date_ok d = true -> date_sub_one_day d = Returned d' ->
  date_ok d' = true /\ (date_fuel d' < date_fuel d)%nat.
Proof.
  intros Hok Hsub. pose proof (date_ok_bounds d Hok) as (Hy & Hm & Hd).
  destruct d as [y m dd]. cbn [year month day] in *.
  pose proof (days_in_month_bounds y (m - 1)) as Hb.
  unfold date_sub_one_day in Hsub. cbn [year month day] in Hsub.
  destruct (N.ltb_spec 1 dd) as [Hdd|Hdd].
  - apply Returned_inj in Hsub. subst d'. split.
    + unfold date_ok. cbn [year month day].
      rewrite !andb_true_iff, !N.leb_le. lia.
    + unfold date_fuel. cbn [year month day]. lia.
  - destruct (N.ltb_spec 1 m) as [Hmm|Hmm].
    + apply Returned_inj in Hsub. subst d'. split.
      * unfold date_ok. cbn [year month day].
        rewrite !andb_true_iff, !N.leb_le. lia.
      * unfold date_fuel. cbn [year month day]. lia.
    + destruct (N.ltb_spec 1 y) as [Hyy|Hyy]; [|discriminate Hsub].
      apply Returned_inj in Hsub. subst d'. split.
      * unfold date_ok. cbn [year month day].
        replace (days_in_month (y - 1) 12) with 31 by reflexivity.
        rewrite !andb_true_iff, !N.leb_le. lia.
      * unfold date_fuel. cbn [year month day]. lia.
Qed.

(** The loop, for any set of date texts: with fuel for the way down to
    [date.min] it ends, either on the first day that is not in the set,
    having counted the days before it, or on [date.min] with every day in
    the set. *)
Lemma streak_loop_walk (dates : gset str) (fuel : nat) :
  forall d acc,
    date_ok d = true -> (date_fuel d < fuel)%nat ->
    (exists k,
        streak_loop fuel dates d acc = Some (Returned (acc + Z.of_nat k)%Z)
        /\ (forall i, (i < k)%nat ->
              exists d', days_before i d = Some d' /\ strftime_ymd d' ∈ dates)
        /\ (exists d', days_before k d = Some d' /\ strftime_ymd d' ∉ dates))
    \/ (streak_loop fuel dates d acc = Some (Raised OverflowError)
        /\ forall i d', days_before i d = Some d' -> strftime_ymd d' ∈ dates).
Proof.
  induction fuel as [|fuel IH]; intros d acc Hok Hfuel; [lia|].
  cbn [streak_loop]. destruct (decide (strftime_ymd d ∈ dates)) as [Hin|Hout].
  - destruct (date_sub_one_day d) as [d1|e] eqn:Hsub.
    + destruct (date_sub_one_day_ok d d1 Hok Hsub) as [Hok1 Hlt].
      destruct (IH d1 (acc + 1)%Z Hok1 ltac:(lia))
        as [(k & Hrun & Hall & Hstop)|(Hrun & Hall)].
      * left. exists (S k). split; [|split].
        -- rewrite Hrun. do 2 f_equal. lia.
        -- intros [|i] Hi; cbn [days_before].
           ++ exists d. auto.
           ++ rewrite Hsub. apply Hall. lia.
        -- cbn [days_before]. rewrite Hsub. exact Hstop.
      * right. split; [exact Hrun|].
        intros [|i] d'; cbn [days_before].
        -- intros [= <-]. exact Hin.
        -- rewrite Hsub. apply Hall.
    + right. rewrite (date_sub_one_day_raises d e Hsub). split; [reflexivity|].
      intros [|i] d'; cbn [days_before].
      * intros [= <-]. exact Hin.
      * rewrite Hsub. discriminate.
  - left. exists O. split; [|split].
    + do 2 f_equal. lia.
    + intros i Hi. lia.
    + exists d. auto.
Qed.

(** The set built by [compute_streak] holds the texts of the days with a
    completed row of the user. *)
Lemma completed_dates_spec (db : database) (author : str) (d : date) :
  strftime_ymd d
    ∈ (list_to_set
         (remove_dups
            (List.map cl_log_date
               (filter (fun x => cl_author x = author /\ cl_completed x = 1%Z)
                  (challenge_logs db)))) : gset str)
  <-> completed_on db author d.
Proof.
  rewrite elem_of_list_to_set, elem_of_remove_dups, list_elem_of_In, in_map_iff.
  unfold completed_on. split.
  - intros (x & Hd & Hx). apply list_elem_of_In, list_elem_of_filter in Hx.
    exists x. tauto.
  - intros (x & Hx & Ha & Hc & Hd). exists x. split; [exact Hd|].
    apply list_elem_of_In, list_elem_of_filter. auto.
Qed.

(** [compute_streak] walks back from the date of the wall clock. *)
Lemma compute_streak_walk fuel clk db author :
  date_ok (date_today clk) = true -> (date_fuel (date_today clk) < fuel)%nat ->
  (exists k,
      compute_streak fuel clk (Available db) author
      = Some (Returned (Z.of_nat k))
      /\ streak_ending_at db author (date_today clk) k)
  \/ (compute_streak fuel clk (Available db) author
      = Some (Raised OverflowError)
      /\ forall i d, days_before i (date_today clk) = Some d ->
                     completed_on db author d).
Proof.
  intros Hok Hfuel. unfold compute_streak. cbn [get_conn]. cbv zeta.
  destruct (streak_loop_walk
              (list_to_set
                 (remove_dups
                    (List.map cl_log_date
                       (filter (fun x => cl_author x = author
                                         /\ cl_completed x = 1%Z)
                          (challenge_logs db)))))
              fuel (date_today clk) 0%Z Hok Hfuel)
    as [(k & Hrun & Hall & (d & Hd & Hstop))|(Hrun & Hall)].
  - left. exists k. split; [exact Hrun|]. split.
    + intros i Hi. destruct (Hall i Hi) as (d' & Hd' & Hin).
      exists d'. split; [exact Hd'|]. apply completed_dates_spec, Hin.
    + exists d. split; [exact Hd|]. intros Hc. apply Hstop.
      apply completed_dates_spec, Hc.
  - right. split; [exact Hrun|]. intros i d Hd.
    apply completed_dates_spec, (Hall i d Hd).
Qed.

(** The walk of the specification determines its number. *)
Lemma streak_ending_at_unique db author as_of k1 k2 :
  streak_ending_at db author as_of k1 ->
  streak_ending_at db author as_of k2 -> k1 = k2.
Proof.
  intros [Hall1 (d1 & Hd1 & Hs1)] [Hall2 (d2 & Hd2 & Hs2)].
  destruct (Nat.lt_trichotomy k1 k2) as [Hlt|[Heq|Hgt]]; [|exact Heq|].
  - destruct (Hall2 k1 Hlt) as (d & Hd & Hc). congruence.
  - destruct (Hall1 k2 Hgt) as (d & Hd & Hc). congruence.
Qed.

End Streak.

(** C1, as the program has it.  [compute_streak(author)] takes no
    reference date: it collects the dates on which the user has a row with
    [completed = 1] and walks backward, one calendar day at a time, from
    [date.today()], the date of the wall clock at the time of the call;
    it returns the number of consecutive days in the set that end there,
    which is 0 when today has no completion.  (Were every day back to
    [date.min] in the set, the subtraction below [date.min] would raise
    [OverflowError].) *)
Theorem compute_streak_from_today fuel clk db author :
  date_ok (date_today clk) = true -> (date_fuel (date_today clk) < fuel)%nat ->
  ((exists k,
       compute_streak fuel clk (Available db) author
       = Some (Returned (Z.of_nat k))
       /\ streak_ending_at db author (date_today clk) k)
   \/ (compute_streak fuel clk (Available db) author
       = Some (Raised OverflowError)
       /\ forall i d, days_before i (date_today clk) = Some d ->
                      completed_on db author d))
  /\ (~ completed_on db author (date_today clk) ->
      compute_streak fuel clk (Available db) author = Some (Returned 0%Z)).
Proof.
  intros Hok Hfuel. split; [apply compute_streak_walk; assumption|].
  intros Hnone.
  destruct (compute_streak_walk fuel clk db author Hok Hfuel)
    as [(k & Hrun & Hall & _)|(_ & Hall)].
  - destruct k as [|k]; [exact Hrun|].
    destruct (Hall O ltac:(lia)) as (d & [= <-] & Hc). contradiction.
  - destruct (Hnone (Hall O _ eq_refl)).
Qed.

(** C1, as the claim has it, fails: the program has no [asOf] argument.
    With completions on 2024-01-01, 02 and 03, the walk from the reference
    date 2024-01-03 counts 3 days; the program, asked on 2024-01-04,
    answers 0, and asked on 2024-01-03 it answers 3: the answer follows
    the wall clock, which it reads itself. *)
Lemma compute_streak_reads_wall_clock :
  let as_of := Date 2024 1 3 in
  streak_ending_at sample_db sample_author as_of 3
  /\ compute_streak 10 (Clock (Date 2024 1 4) 8 0) (Available sample_db)
       sample_author = Some (Returned 0%Z)
  /\ compute_streak 10 (Clock (Date 2024 1 3) 8 0) (Available sample_db)
       sample_author = Some (Returned 3%Z).
Proof.
  cbv zeta. split; [|split; vm_compute; reflexivity].
  split.
  - intros i Hi. destruct i as [|[|[|i]]]; [| | |lia].
    + exists (Date 2024 1 3). split; [reflexivity|].
      exists (LogRow (py "2024-01-03") sample_author (py "MOVE_10") 1
                (py "2024-01-03 09:05")).
      split; [|vm_compute; auto]. apply list_elem_of_In. vm_compute. auto 6.
    + exists (Date 2024 1 2). split; [reflexivity|].
      exists (LogRow (py "2024-01-02") sample_author (py "MOVE_10") 1
                (py "2024-01-02 16:45")).
      split; [|vm_compute; auto]. apply list_elem_of_In. vm_compute. auto 6.
    + exists (Date 2024 1 1). split; [reflexivity|].
      exists (LogRow (py "2024-01-01") sample_author (py "MOVE_10") 1
                (py "2024-01-01 16:30")).
      split; [|vm_compute; auto]. apply list_elem_of_In. vm_compute. auto 6.
  - exists (Date 2023 12 31). split; [reflexivity|].
    intros (x & Hx & _ & _ & Hd). apply list_elem_of_In in Hx.
    cbn [sample_db challenge_logs In] in Hx.
    destruct Hx as [<-|[<-|[<-|[<-|[]]]]]; vm_compute in Hd; discriminate Hd.
Qed.

(** ** The sample database *)

Lemma reachable_run_calls cs :
  forall db db', reachable db -> run_calls db cs = Returned db' ->
                 reachable db'.
Proof.
  induction cs as [|[clk c] cs IH]; intros db db' Hreach Hrun;
    cbn [run_calls] in Hrun.
  - apply Returned_inj in Hrun. subst db'. exact Hreach.
  - destruct (exec_call clk (Available db) c) as [db1|e] eqn:Hstep;
      cbn [mbind outcome_bind] in Hrun; [|discriminate Hrun].
    apply (IH db1 db'); [|exact Hrun].
    exact (reachable_step db clk c db1 Hreach Hstep).
Qed.

Lemma seeded_db_reachable : reachable seeded_db.
Proof. apply reachable_init. vm_compute. reflexivity. Qed.

Lemma sample_db_reachable : reachable sample_db.
Proof.
  apply (reachable_run_calls sample_calls seeded_db);
    [exact seeded_db_reachable|]. vm_compute. reflexivity.
Qed.

Lemma sample_db_well_dated : well_dated sample_db.
Proof.
  unfold well_dated. cbn [sample_db challenge_logs].
  repeat (constructor; [cbn [cl_log_date]|]).
  - exists (Date 2024 1 1). cbn [year]. split; [reflexivity|split; [lia|reflexivity]].
  - exists (Date 2024 1 2). cbn [year]. split; [reflexivity|split; [lia|reflexivity]].
  - exists (Date 2024 1 3). cbn [year]. split; [reflexivity|split; [lia|reflexivity]].
  - exists (Date 2024 1 3). cbn [year]. split; [reflexivity|split; [lia|reflexivity]].
  - constructor.
Qed.

(** ** The theorems at the sample data *)

Lemma compute_streak_from_today_witness :
  let clk := Clock (Date 2024 1 3) 8 0 in
  let fuel := S (date_fuel (date_today clk)) in
  date_ok (date_today clk) = true
  /\ (date_fuel (date_today clk) < fuel)%nat
  /\ ((exists k,
          compute_streak fuel clk (Available sample_db) sample_author
          = Some (Returned (Z.of_nat k))
          /\ streak_ending_at sample_db sample_author (date_today clk) k)
      \/ (compute_streak fuel clk (Available sample_db) sample_author
          = Some (Raised OverflowError)
          /\ forall i d, days_before i (date_today clk) = Some d ->
                         completed_on sample_db sample_author d)).
Proof.
  cbv zeta. split; [reflexivity|split; [lia|]].
  exact (proj1 (compute_streak_from_today _ (Clock (Date 2024 1 3) 8 0)
                  sample_db sample_author eq_refl (Nat.lt_succ_diag_r _))).
Defined.

Lemma set_completion_last_write_wins_witness :
  reachable sample_db
  /\ exists db',
       set_completions sample_db sample_author (py "2024-01-03") (py "MOVE_10")
         ([(Clock (Date 2024 1 3) 10 0, true)]
          ++ [(Clock (Date 2024 1 3) 10 1, false)]) = Returned db'
       /\ exists row,
            logs_at db' (py "2024-01-03") sample_author (py "MOVE_10") = [row]
            /\ cl_completed row = Z.b2z false.
Proof.
  split; [exact sample_db_reachable|].
  apply (set_completion_last_write_wins sample_db sample_author
           (py "2024-01-03") (py "MOVE_10")
           [(Clock (Date 2024 1 3) 10 0, true)]
           (Clock (Date 2024 1 3) 10 1) false).
  exact sample_db_reachable.
Defined.

Lemma reachable_rows_unique_witness :
  reachable sample_db
  /\ (forall log_date author challenge_code,
         (length (logs_at sample_db log_date author challenge_code) <= 1)%nat)
  /\ (forall log_date author,
         (length (reflections_at sample_db log_date author) <= 1)%nat).
Proof.
  split; [exact sample_db_reachable|].
  apply (reachable_rows_unique sample_db). exact sample_db_reachable.
Defined.

Lemma reflection_round_trip_witness :
  (forall x, x ∈ daily_reflections sample_db ->
             ~ (rf_author x = py "NQT2026" /\ rf_log_date x = py "2024-01-03"))
  /\ fetch_reflection (Available sample_db) (py "NQT2026") (py "2024-01-03")
     = Returned (Reflection [] [] []).
Proof.
  assert (Hno : forall x, x ∈ daily_reflections sample_db ->
            ~ (rf_author x = py "NQT2026" /\ rf_log_date x = py "2024-01-03")).
  { intros x Hx [Ha _]. apply list_elem_of_In in Hx.
    cbn [sample_db daily_reflections In] in Hx. destruct Hx as [<-|[]].
    vm_compute in Ha. discriminate Ha. }
  split; [exact Hno|].
  exact (proj2 (reflection_round_trip (Clock (Date 2024 1 3) 10 0) sample_db
                  (py "NQT2026") (py "2024-01-03")) Hno).
Defined.

Lemma completed_count_in_range_counts_rows_witness :
  let start_date := Date 2024 1 1 in
  let end_date := Date 2024 1 7 in
  date_ok start_date = true /\ date_ok end_date = true
  /\ 1000 <= year start_date /\ 1000 <= year end_date
  /\ well_dated sample_db
  /\ completed_count_in_range (Available sample_db) sample_author
       start_date end_date
     = Returned (Z.of_nat
                   (length (completed_rows_between sample_db sample_author
                              start_date end_date))).
Proof.
  cbv zeta. cbn [year].
  assert (Hyear : 1000 <= 2024) by lia.
  split; [reflexivity|split; [reflexivity|]].
  split; [exact Hyear|split; [exact Hyear|]].
  split; [exact sample_db_well_dated|].
  exact (proj1 (completed_count_in_range_counts_rows sample_db sample_author
                  (Date 2024 1 1) (Date 2024 1 7) eq_refl eq_refl
                  Hyear Hyear sample_db_well_dated)).
Defined.

Lemma seed_defaults_idempotent_witness :
  let mine := ChallengeRow (py "MOVE_10") (py "Walk to the shop") (py "Mine")
                (py "There and back.") 300 in
  let db := Database [] [] [mine] [] [] in
  unique_codes db
  /\ exists db',
       init_db_times 3 db = Returned db'
       /\ (forall r, r ∈ default_challenges ->
                     length (challenges_at db' (ch_code r)) = 1%nat)
       /\ (forall x, x ∈ challenges db -> challenges_at db' (ch_code x) = [x])
       /\ init_db (Available db') = Returned db'.
Proof.
  cbv zeta.
  assert (Hu : unique_codes
                 (Database [] []
                    [ChallengeRow (py "MOVE_10") (py "Walk to the shop")
                       (py "Mine") (py "There and back.") 300] [] []))
    by apply NoDup_singleton.
  split; [exact Hu|].
  exact (seed_defaults_idempotent 2 _ Hu).
Defined.

(** * Further properties of the program *)

(** ** Reads after a write to [challenge_logs] *)

Section LogReads.

(** A query that selects no row with the key of [r] gives the same rows
    before and after the upsert of [r]. *)
Lemma upsert_challenge_log_frame (P : log_row -> Prop)
    `{!forall x, Decision (P x)} (t : list log_row) (r : log_row) :
  (forall y, P y -> ~ same_log_key r y) ->
  filter P (upsert_challenge_log t r) = filter P t.
Proof.
  intros Hframe. unfold upsert_challenge_log.
  destruct (decide (Exists (same_log_key r) t)) as [_|_].
  - induction t as [|x t IH]; [reflexivity|]. cbn [List.map].
    rewrite !filter_cons, IH.
    destruct (decide (same_log_key r x)) as [Hk|Hk]; [|reflexivity].
    rewrite !decide_False; [reflexivity| |].
    + intros HP. exact (Hframe x HP Hk).
    + intros HP. apply (Hframe _ HP). exact Hk.
  - rewrite filter_app, filter_cons, filter_nil, decide_False.
    + apply app_nil_r.
    + intros HP. apply (Hframe r HP). repeat split.
Qed.

Lemma upsert_challenge_log_elem (t : list log_row) (r : log_row) :
  r ∈ upsert_challenge_log t r.
Proof.
  unfold upsert_challenge_log.
  destruct (decide (Exists (same_log_key r) t)) as [Hex|Hno].
  - apply Exists_exists in Hex as (x & Hx & Hk).
    apply list_elem_of_In, in_map_iff. exists x. split.
    + rewrite decide_True by exact Hk.
      destruct Hk as (Hd & Ha & Hc). rewrite Hd, Ha, Hc. destruct r. reflexivity.
    + apply list_elem_of_In, Hx.
  - apply elem_of_app. right. apply list_elem_of_here.
Qed.

(** The dictionary built from rows with distinct codes maps a code to the
    [completed] of its row. *)
Lemma fold_insert_lookup (rows : list log_row) (m0 : gmap str Z) (c : str) :
  NoDup (List.map cl_challenge_code rows) ->
  fold_left (fun m x => <[cl_challenge_code x := cl_completed x]> m) rows m0
    !! c
  = match filter (fun x => cl_challenge_code x = c) rows with
    | x :: _ => Some (cl_completed x)
    | [] => m0 !! c
    end.
Proof.
  revert m0. induction rows as [|x rows IH]; intros m0 Hnd; [reflexivity|].
  cbn [List.map] in Hnd. apply NoDup_cons in Hnd as [Hx Hnd].
  cbn [fold_left]. rewrite (IH _ Hnd), filter_cons.
  destruct (decide (cl_challenge_code x = c)) as [Hc|Hc].
  - rewrite (filter_key_absent cl_challenge_code).
    + rewrite Hc. apply lookup_insert_eq.
    + intros Hex. apply Hx. apply Exists_exists in Hex as (y & Hy & Hcy).
      rewrite Hc, <- Hcy. apply (key_elem_of cl_challenge_code), Hy.
  - destruct (filter _ rows); [|reflexivity]. apply lookup_insert_ne, Hc.
Qed.

Lemma user_day_codes_unique (t : list log_row) (author log_date : str) :
  NoDup (List.map log_key t) ->
  NoDup (List.map cl_challenge_code
           (filter (fun x => cl_author x = author /\ cl_log_date x = log_date)
              t)).
Proof.
  induction t as [|x t IH]; intros Hnd; [constructor|].
  cbn [List.map] in Hnd. apply NoDup_cons in Hnd as [Hx Hnd].
  rewrite filter_cons.
  destruct (decide (cl_author x = author /\ cl_log_date x = log_date))
    as [[Ha Hd]|_]; [|apply IH, Hnd].
  cbn [List.map]. apply NoDup_cons. split; [|apply IH, Hnd].
  intros Hin. apply Hx. apply list_elem_of_In, in_map_iff in Hin.
  destruct Hin as (y & Hc & Hy).
  apply list_elem_of_In, list_elem_of_filter in Hy as [[Hay Hdy] Hy].
  replace (log_key x) with (log_key y)
    by (unfold log_key; congruence).
  apply (key_elem_of log_key), Hy.
Qed.

(** What [fetch_user_logs] answers for one code: the [completed] of the
    row under the key, if there is one. *)
Lemma fetch_user_logs_lookup db author log_date :
  unique_logs db ->
  exists m,
    fetch_user_logs (Available db) author log_date = Returned m
    /\ forall c, m !! c = match logs_at db log_date author c with
                          | x :: _ => Some (cl_completed x)
                          | [] => None
                          end.
Proof.
  intros Hl. unfold fetch_user_logs. run_conn. eexists. split; [reflexivity|].
  intros c. rewrite fold_insert_lookup by (apply user_day_codes_unique, Hl).
  rewrite list_filter_filter. unfold logs_at.
  rewrite (list_filter_iff _ (fun x => log_key x = (log_date, author, c))).
  - destruct (filter _ (challenge_logs db)); reflexivity.
  - intros x. unfold log_key. split.
    + intros (<- & <- & <-). reflexivity.
    + intros [= <- <- <-]. auto.
Qed.

Lemma logs_at_other_code clk db author log_date code completed db' c' :
  set_challenge_completion clk (Available db) author log_date code completed
  = Returned db' ->
  c' <> code ->
  logs_at db' log_date author c' = logs_at db log_date author c'.
Proof.
  intros Hrun Hne. rewrite set_challenge_completion_returns in Hrun.
  apply Returned_inj in Hrun. subst db'. unfold logs_at. cbn [challenge_logs].
  apply upsert_challenge_log_frame.
  intros y Hy (_ & _ & Hc). unfold log_key in Hy. cbn in Hc. congruence.
Qed.

End LogReads.





Section DailyTotal.

Lemma filter_split_length {A : Type} (P Q : A -> Prop)
    `{!forall x, Decision (P x)} `{!forall x, Decision (Q x)} (l : list A) :
  length (filter P l)
  = (length (filter (fun x => P x /\ Q x) l)
     + length (filter (fun x => P x /\ ~ Q x) l))%nat.
Proof.
  induction l as [|x l IH]; [reflexivity|].
  rewrite !filter_cons.
  destruct (decide (P x)) as [HP|HP], (decide (Q x)) as [HQ|HQ];
    repeat (first [rewrite decide_True by tauto
                  |rewrite decide_False by tauto]);
    cbn [length]; lia.
Qed.

(** The completed rows of a user and day: the one under a given code, and
    the others. *)
Lemma daily_total_split db author log_date code :
  daily_completion_total (Available db) author log_date
  = Returned
      (Z.of_nat
         (length (filter (fun x => cl_completed x = 1%Z)
                    (logs_at db log_date author code))
          + length (filter (fun x =>
                              (cl_author x = author /\ cl_log_date x = log_date
                               /\ cl_completed x = 1%Z)
                              /\ ~ cl_challenge_code x = code)
                      (challenge_logs db)))).
Proof.
  unfold daily_completion_total. run_conn. do 2 f_equal.
  rewrite (filter_split_length _ (fun x => cl_challenge_code x = code)).
  f_equal. unfold logs_at. rewrite list_filter_filter. f_equal.
  apply list_filter_iff. intros x. unfold log_key. split.
  - intros ((<- & <- & Hc) & <-). auto.
  - intros (Hc & [= <- <- <-]). auto.
Qed.

End DailyTotal.

(** X3. Ticking and unticking move the day's total by one row at most:
    on a reachable database, after [set_challenge_completion(author,
    log_date, code, 1 if checked else 0)] the value of
    [daily_completion_total(author, log_date)] is its value before, minus
    one if the row of [code] was completed, plus one if [checked]. *)
Theorem daily_total_after_set clk db author log_date code (checked : bool) :
  reachable db ->
  exists db' n n',
    set_challenge_completion clk (Available db) author log_date code
      (Z.b2z checked) = Returned db'
    /\ daily_completion_total (Available db) author log_date = Returned n
    /\ daily_completion_total (Available db') author log_date = Returned n'
    /\ (n' = n - Z.of_nat (length (filter (fun x => cl_completed x = 1%Z)
                                     (logs_at db log_date author code)))
             + Z.b2z checked)%Z.
Proof.
  intros Hreach. destruct (reachable_constraints db Hreach) as (Hl & _).
  destruct (set_challenge_completion_unique clk db author log_date code
              (Z.b2z checked) _ Hl
              (set_challenge_completion_returns _ _ _ _ _ _)) as [_ Hat].
  eexists _, _, _. split; [apply set_challenge_completion_returns|].
  split; [apply (daily_total_split db author log_date code)|].
  split; [apply (daily_total_split _ author log_date code)|].
  rewrite Hat. cbn [challenge_logs].
  rewrite upsert_challenge_log_frame.
  - rewrite filter_cons, filter_nil. cbn [cl_completed].
    destruct checked; cbn [Z.b2z].
    + rewrite decide_True by reflexivity. cbn [length]. lia.
    + rewrite decide_False by discriminate. cbn [length]. lia.
  - intros y [_ Hc] (_ & _ & Hk). cbn in Hk. congruence.
Qed.

Lemma daily_total_after_set_witness :
  reachable sample_db
  /\ exists db' n n',
       set_challenge_completion (Clock (Date 2024 1 3) 10 0)
         (Available sample_db) sample_author (py "2024-01-03")
         (py "MOVE_10") (Z.b2z false) = Returned db'
       /\ daily_completion_total (Available sample_db) sample_author
            (py "2024-01-03") = Returned n
       /\ daily_completion_total (Available db') sample_author
            (py "2024-01-03") = Returned n'
       /\ (n' = n - Z.of_nat
                      (length (filter (fun x => cl_completed x = 1%Z)
                                 (logs_at sample_db (py "2024-01-03")
                                    sample_author (py "MOVE_10"))))
                + Z.b2z false)%Z.
Proof.
  split; [exact sample_db_reachable|].
  exact (daily_total_after_set (Clock (Date 2024 1 3) 10 0) sample_db
           sample_author (py "2024-01-03") (py "MOVE_10") false
           sample_db_reachable).
Defined.

(** X4. Completing any challenge today gives a streak of at least one
    day: after [set_challenge_completion(author, today_str(), code, 1)]
    the loop of [compute_streak(author)] counts today (or, with every day
    back to [date.min] completed, raises [OverflowError]). *)
Theorem streak_positive_after_today fuel clk db author code :
  date_ok (date_today clk) = true -> (date_fuel (date_today clk) < fuel)%nat ->
  exists db',
    set_challenge_completion clk (Available db) author (today_str clk) code 1
    = Returned db'
    /\ ((exists k, compute_streak fuel clk (Available db') author
                   = Some (Returned (Z.of_nat (S k))))
        \/ compute_streak fuel clk (Available db') author
           = Some (Raised OverflowError)).
Proof.
  intros Hok Hfuel. eexists. split; [apply set_challenge_completion_returns|].
  match goal with |- context [Available ?d] => set (db' := d) end.
  assert (Htoday : completed_on db' author (date_today clk)).
  { exists (LogRow (today_str clk) author code 1 (now_str clk)).
    split; [apply upsert_challenge_log_elem|]. auto. }
  destruct (compute_streak_walk fuel clk db' author Hok Hfuel)
    as [(k & Hrun & _ & (d & Hd & Hstop))|(Hrun & _)]; [|right; exact Hrun].
  left. destruct k as [|k]; [|exists k; exact Hrun].
  cbn [days_before] in Hd. injection Hd as <-. contradiction.
Qed.

Lemma streak_positive_after_today_witness :
  let clk := Clock (Date 2024 1 5) 8 0 in
  let fuel := S (date_fuel (date_today clk)) in
  date_ok (date_today clk) = true
  /\ (date_fuel (date_today clk) < fuel)%nat
  /\ exists db',
       set_challenge_completion clk (Available sample_db) sample_author
         (today_str clk) (py "MOVE_10") 1 = Returned db'
       /\ ((exists k, compute_streak fuel clk (Available db') sample_author
                      = Some (Returned (Z.of_nat (S k))))
           \/ compute_streak fuel clk (Available db') sample_author
              = Some (Raised OverflowError)).
Proof.
  cbv zeta. split; [reflexivity|split; [apply Nat.lt_succ_diag_r|]].
  exact (streak_positive_after_today _ (Clock (Date 2024 1 5) 8 0) sample_db
           sample_author (py "MOVE_10") eq_refl (Nat.lt_succ_diag_r _)).
Defined.

(** ** Reads after a write to [daily_reflections] *)

Lemma upsert_daily_reflection_frame (P : reflection_row -> Prop)
    `{!forall x, Decision (P x)} (t : list reflection_row) r :
  (forall y, P y -> ~ same_reflection_key r y) ->
  filter P (upsert_daily_reflection t r) = filter P t.
Proof.
  intros Hframe. unfold upsert_daily_reflection.
  destruct (decide (Exists (same_reflection_key r) t)) as [_|_].
  - induction t as [|x t IH]; [reflexivity|]. cbn [List.map].
    rewrite !filter_cons, IH.
    destruct (decide (same_reflection_key r x)) as [Hk|Hk]; [|reflexivity].
    rewrite !decide_False; [reflexivity| |].
    + intros HP. exact (Hframe x HP Hk).
    + intros HP. apply (Hframe _ HP). exact Hk.
  - rewrite filter_app, filter_cons, filter_nil, decide_False.
    + apply app_nil_r.
    + intros HP. apply (Hframe r HP). repeat split.
Qed.

(** X5. Saving a reflection touches nothing else: after
    [save_reflection(author, log_date, ...)] the reflection of any other
    user or day reads as before, and the completion logs are the same
    rows. *)
Theorem save_reflection_frame clk db author log_date w s n other_author
    other_date :
  other_author <> author \/ other_date <> log_date ->
  exists db',
    save_reflection clk (Available db) author log_date w s n = Returned db'
    /\ fetch_reflection (Available db') other_author other_date
       = fetch_reflection (Available db) other_author other_date
    /\ challenge_logs db' = challenge_logs db.
Proof.
  intros Hne. eexists. split; [apply save_reflection_returns|].
  split; [|reflexivity].
  unfold fetch_reflection. run_conn. cbn [daily_reflections].
  rewrite upsert_daily_reflection_frame; [reflexivity|].
  intros y [Ha Hd] [Hkd Hka]. cbn in Hkd, Hka. destruct Hne; congruence.
Qed.

Lemma save_reflection_frame_witness :
  (sample_author <> sample_author \/ py "2024-01-03" <> py "2024-01-04")
  /\ exists db',
       save_reflection (Clock (Date 2024 1 4) 18 0) (Available sample_db)
         sample_author (py "2024-01-04") (py "x") (py "y") (py "z")
       = Returned db'
       /\ fetch_reflection (Available db') sample_author (py "2024-01-03")
          = fetch_reflection (Available sample_db) sample_author
              (py "2024-01-03")
       /\ challenge_logs db' = challenge_logs sample_db.
Proof.
  assert (Hne : sample_author <> sample_author
                \/ py "2024-01-03" <> py "2024-01-04")
    by (right; vm_compute; discriminate).
  split; [exact Hne|].
  exact (save_reflection_frame (Clock (Date 2024 1 4) 18 0) sample_db
           sample_author (py "2024-01-04") (py "x") (py "y") (py "z")
           sample_author (py "2024-01-03") Hne).
Defined.

(** ** The catalogue at run time *)

Section Catalogue.

Lemma default_codes_distinct : NoDup (List.map ch_code default_challenges).
Proof.
  apply (bool_decide_unpack (NoDup (List.map ch_code default_challenges))).
  vm_compute. exact I.
Qed.

Lemma seed_empty :
  fold_left insert_or_ignore_challenge default_challenges []
  = default_challenges.
Proof. vm_compute. reflexivity. Qed.

Lemma seed_defaults_again :
  fold_left insert_or_ignore_challenge default_challenges default_challenges
  = default_challenges.
Proof.
  apply seed_ignored. intros r Hr. apply Exists_exists. exists r. auto.
Qed.

(** No operation of the program changes the catalogue once it is
    seeded. *)
Lemma reachable_catalogue (db : database) :
  reachable db -> challenges db = default_challenges.
Proof.
  induction 1 as [db Hinit|db clk c db' _ IH Hrun].
  - rewrite init_db_returns in Hinit. apply Returned_inj in Hinit. subst db.
    cbn [challenges empty_db]. exact seed_empty.
  - destruct c; cbn [exec_call] in Hrun.
    + rewrite init_db_returns in Hrun. apply Returned_inj in Hrun. subst db'.
      cbn [challenges]. rewrite IH. exact seed_defaults_again.
    + unfold add_post in Hrun. run_conn. apply Returned_inj in Hrun.
      subst db'. exact IH.
    + apply add_reply_inv in Hrun as [_ ->]. exact IH.
    + rewrite set_challenge_completion_returns in Hrun.
      apply Returned_inj in Hrun. subst db'. exact IH.
    + rewrite save_reflection_returns in Hrun.
      apply Returned_inj in Hrun. subst db'. exact IH.
Qed.

End Catalogue.

(** X6. The catalogue is fixed at run time: on every reachable database
    [fetch_challenges()] returns exactly the default challenges, in the
    order of the source list, and the [init_db()] that every rerun of
    the script performs changes nothing. *)
Theorem catalogue_fixed (db : database) :
  reachable db ->
  fetch_challenges (Available db) = Returned default_challenges
  /\ init_db (Available db) = Returned db.
Proof.
  intros Hreach. pose proof (reachable_catalogue db Hreach) as Hcat. split.
  - unfold fetch_challenges. run_conn. rewrite Hcat. reflexivity.
  - rewrite init_db_returns, Hcat, seed_defaults_again, <- Hcat.
    destruct db. reflexivity.
Qed.

Lemma catalogue_fixed_witness :
  reachable sample_db
  /\ fetch_challenges (Available sample_db) = Returned default_challenges
  /\ init_db (Available sample_db) = Returned sample_db.
Proof.
  split; [exact sample_db_reachable|].
  exact (catalogue_fixed sample_db sample_db_reachable).
Defined.

(** ** The community board *)

Section Board.

Lemma with_rowid_from_app {A : Type} (n : Z) (t : list A) (x : A) :
  with_rowid_from n (t ++ [x])
  = with_rowid_from n t ++ [((n + Z.of_nat (length t))%Z, x)].
Proof.
  revert n. induction t as [|y t IH]; intros n; cbn [with_rowid_from app length].
  - replace (n + Z.of_nat 0)%Z with n by lia. reflexivity.
  - rewrite IH.
    replace (n + 1 + Z.of_nat (length t))%Z
      with (n + Z.of_nat (S (length t)))%Z by lia.
    reflexivity.
Qed.

Lemma lstrip_blank (s : str) : forallb isspace s = true -> lstrip s = [].
Proof.
  induction s as [|c s IH]; [reflexivity|]. cbn [forallb lstrip].
  intros H. apply andb_true_iff in H as [-> H]. apply IH, H.
Qed.

Lemma strip_blank (s : str) : forallb isspace s = true -> strip s = [].
Proof. intros H. unfold strip. rewrite (lstrip_blank s H). reflexivity. Qed.

Lemma strip_strip (s : str) : strip (strip s) = strip s.
Proof.
  destruct (strip_split s) as (_ & _ & _ & _ & _ & Hb & He).
  apply strip_fixed; assumption.
Qed.

Lemma strip_filled (s : str) : strip s <> [] -> filled (strip s).
Proof. intros H. split; [exact H|apply strip_strip]. Qed.







(** What follows a U+0000 in a title is not searched: the title
    ["a", U+0000, "b"] is found under ["a"] and not under ["b"]. *)
Lemma sql_like_stops_at_nul :
  sql_like (py "%a%") [97; 0; 98] = true
  /\ sql_like (py "%b%") [97; 0; 98] = false.
Proof. split; vm_compute; reflexivity. Qed.

End Board.

(** X7. A new post is listed first: after [add_post], [fetch_posts] with
    any search text and category filter returns the listing it returned
    before, preceded by the new post if the new post passes the filter.
    The new post has the next [id] and the stripped title and body. *)
Theorem fetch_posts_after_add_post clk db author category title body
    search_text category_filter :
  like_pattern_ok search_text = true ->
  let new_post :=
    ((1 + Z.of_nat (length (posts db)))%Z,
     PostRow (now_str clk) author category (strip title) (strip body)) in
  exists db' old,
    add_post clk (Available db) author category title body = Returned db'
    /\ fetch_posts (Available db) search_text category_filter = Returned old
    /\ fetch_posts (Available db') search_text category_filter
       = Returned ((if post_selected search_text category_filter new_post
                    then [new_post] else []) ++ old).
Proof.
  intros _ new_post. eexists _, _. unfold add_post, fetch_posts. run_conn.
  split; [reflexivity|]. split; [reflexivity|]. f_equal. cbn [posts].
  unfold with_rowid. rewrite with_rowid_from_app, List.filter_app, rev_app_distr.
  f_equal. cbn [List.filter]. fold new_post.
  destruct (post_selected search_text category_filter new_post); reflexivity.
Qed.

Lemma fetch_posts_after_add_post_witness :
  let db := sample_db in
  let clk := Clock (Date 2024 1 3) 12 0 in
  let new_post :=
    ((1 + Z.of_nat (length (posts db)))%Z,
     PostRow (now_str clk) sample_author (py "Other") (strip (py " Hello "))
       (strip (py "A tip"))) in
  like_pattern_ok (py "tip") = true
  /\ exists db' old,
       add_post clk (Available db) sample_author (py "Other") (py " Hello ")
         (py "A tip") = Returned db'
       /\ fetch_posts (Available db) (py "tip") (py "All") = Returned old
       /\ fetch_posts (Available db') (py "tip") (py "All")
          = Returned ((if post_selected (py "tip") (py "All") new_post
                       then [new_post] else []) ++ old).
Proof.
  cbv zeta. split; [reflexivity|].
  exact (fetch_posts_after_add_post (Clock (Date 2024 1 3) 12 0) sample_db
           sample_author (py "Other") (py " Hello ") (py "A tip") (py "tip")
           (py "All") eq_refl).
Defined.



(** X9. A blank search is no search: when the search text is empty or
    only whitespace, [fetch_posts] returns what it returns for the empty
    text, and with the filter "All" that is every post, newest first. *)
Theorem fetch_posts_blank_search s search_text category_filter :
  forallb isspace search_text = true ->
  fetch_posts s search_text category_filter = fetch_posts s [] category_filter
  /\ forall db, s = Available db ->
       fetch_posts s search_text (py "All")
       = Returned (rev (with_rowid (posts db))).
Proof.
  intros Hblank. pose proof (strip_blank search_text Hblank) as Hs.
  assert (Hsel : forall cf x,
             post_selected search_text cf x = post_selected [] cf x).
  { intros cf x. unfold post_selected. rewrite Hs.
    change (strip []) with ([] : str). reflexivity. }
  split.
  - unfold fetch_posts. destruct s as [|db]; [reflexivity|]. run_conn.
    do 2 f_equal. apply List.filter_ext. intros x. apply Hsel.
  - intros db ->. unfold fetch_posts. run_conn. do 2 f_equal.
    rewrite (List.filter_ext _ (fun _ => true)).
    + induction (with_rowid (posts db)) as [|y l IH]; [reflexivity|].
      cbn [List.filter]. rewrite IH. reflexivity.
    + intros x. unfold post_selected. rewrite Hs.
      rewrite decide_True by reflexivity. rewrite decide_True by reflexivity.
      reflexivity.
Qed.

Lemma fetch_posts_blank_search_witness :
  forallb isspace (py "   ") = true
  /\ fetch_posts (Available sample_db) (py "   ") (py "Other")
     = fetch_posts (Available sample_db) [] (py "Other").
Proof.
  split; [reflexivity|].
  exact (proj1 (fetch_posts_blank_search (Available sample_db) (py "   ")
                  (py "Other") eq_refl)).
Defined.

(** X10. Replies are appended to their thread: for post ids that fit
    SQLite's 64-bit INTEGER, after [add_reply(post_id, author, body)],
    [fetch_replies(post_id)] is the list it was before followed by the
    new reply with its stripped body, and the replies of every other post
    are unchanged; the reply is stored whether or not a post has that id.
    With a [post_id] outside 64 bits [add_reply] raises
    [OverflowError]. *)
Theorem fetch_replies_after_add_reply clk db post_id author body other :
  sqlite_integer other = true ->
  (sqlite_integer post_id = true ->
   exists db' old,
     add_reply clk (Available db) post_id author body = Returned db'
     /\ fetch_replies (Available db) other = Returned old
     /\ fetch_replies (Available db') other
        = Returned (old ++ (if decide (other = post_id)
                            then [(now_str clk, author, strip body)]
                            else [])))
  /\ (sqlite_integer post_id = false ->
      add_reply clk (Available db) post_id author body
      = Raised OverflowError).
Proof.
  intros Hother. unfold add_reply, fetch_replies. run_conn. rewrite Hother.
  split; intros Hid; rewrite Hid; [|reflexivity].
  eexists _, _. split; [reflexivity|]. split; [reflexivity|]. f_equal.
  cbn [replies]. rewrite filter_app, List.map_app. f_equal.
  rewrite filter_cons, filter_nil. cbn [reply_post_id].
  destruct (decide (post_id = other)) as [->|Hne].
  - rewrite decide_True by reflexivity. reflexivity.
  - rewrite decide_False by congruence. reflexivity.
Qed.

Lemma fetch_replies_after_add_reply_witness :
  let clk := Clock (Date 2024 1 3) 12 0 in
  sqlite_integer 1 = true
  /\ sqlite_integer 1 = true
  /\ exists db' old,
       add_reply clk (Available sample_db) 1 sample_author (py " Thanks ")
       = Returned db'
       /\ fetch_replies (Available sample_db) 1 = Returned old
       /\ fetch_replies (Available db') 1
          = Returned (old ++ (if decide (1%Z = 1%Z)
                              then [(now_str clk, sample_author,
                                     strip (py " Thanks "))]
                              else [])).
Proof.
  cbv zeta. split; [reflexivity|]. split; [reflexivity|].
  exact (proj1 (fetch_replies_after_add_reply (Clock (Date 2024 1 3) 12 0)
                  sample_db 1 sample_author (py " Thanks ") 1 eq_refl)
           eq_refl).
Defined.

(** X11. What the buttons of the community page store: with a blank
    nickname both handlers stop and write nothing; and when a handler
    does write, the new post or reply has a non-empty author, title and
    body without surrounding whitespace, so a board whose rows are all
    filled stays so. *)
Theorem community_page_stores_filled clk db nickname category title body
    post_id reply_text :
  Forall post_filled (posts db) -> Forall reply_filled (replies db) ->
  (strip nickname = [] ->
   page_community_post clk (Available db) nickname category title body
   = Returned PageStopped
   /\ page_community_reply clk (Available db) nickname post_id reply_text
      = Returned PageStopped)
  /\ (forall db',
         page_community_post clk (Available db) nickname category title body
         = Returned (PageSaved db') ->
         posts db'
         = posts db ++ [PostRow (now_str clk) (strip nickname) category
                          (strip title) (strip body)]
         /\ Forall post_filled (posts db')
         /\ Forall reply_filled (replies db'))
  /\ (forall db',
         page_community_reply clk (Available db) nickname post_id reply_text
         = Returned (PageSaved db') ->
         replies db'
         = replies db ++ [ReplyRow post_id (now_str clk) (strip nickname)
                            (strip reply_text)]
         /\ Forall post_filled (posts db')
         /\ Forall reply_filled (replies db')).
Proof.
  intros Hposts Hreplies. unfold page_community_post, page_community_reply,
    require_nickname_or_stop.
  destruct (decide (strip nickname = [])) as [Hnick|Hnick].
  - split; [auto|]. split; intros db' H; discriminate H.
  - split; [intros H; contradiction|]. split; intros db' H.
    + destruct (decide (strip title = [] \/ strip body = [])) as [Hb|Hb];
        [discriminate H|].
      unfold add_post in H. run_conn. cbn [mbind outcome_bind] in H.
      injection H as <-. cbn [posts replies]. split; [reflexivity|].
      split; [|exact Hreplies].
      apply Forall_app. split; [exact Hposts|].
      constructor; [|constructor]. unfold post_filled.
      cbn [post_author post_title post_body].
      split; [apply strip_filled, Hnick|].
      split; apply strip_filled; tauto.
    + destruct (decide (strip reply_text = [])) as [Hb|Hb];
        [discriminate H|].
      destruct (add_reply clk (Available db) post_id (strip nickname)
                  reply_text) as [saved|e] eqn:Hadd;
        cbn [mbind outcome_bind] in H; [|discriminate H].
      injection H as <-. apply add_reply_inv in Hadd as [_ ->].
      cbn [posts replies]. split; [reflexivity|].
      split; [exact Hposts|].
      apply Forall_app. split; [exact Hreplies|].
      constructor; [|constructor]. unfold reply_filled.
      cbn [reply_author reply_body].
      split; apply strip_filled; assumption.
Qed.

Lemma community_page_stores_filled_witness :
  let clk := Clock (Date 2024 1 3) 12 0 in
  let db' :=
    Database [PostRow (now_str clk) (py "MsH") (py "Other") (py "Hi")
                (py "A tip")] [] (challenges sample_db)
      (challenge_logs sample_db) (daily_reflections sample_db) in
  Forall post_filled (posts sample_db)
  /\ Forall reply_filled (replies sample_db)
  /\ page_community_post clk (Available sample_db) (py " MsH") (py "Other")
       (py " Hi ") (py "A tip") = Returned (PageSaved db')
  /\ Forall post_filled (posts db').
Proof.
  cbv zeta.
  assert (Hp : Forall post_filled (posts sample_db)) by constructor.
  assert (Hr : Forall reply_filled (replies sample_db)) by constructor.
  assert (Hrun : page_community_post (Clock (Date 2024 1 3) 12 0)
                   (Available sample_db) (py " MsH") (py "Other")
                   (py " Hi ") (py "A tip")
                 = Returned
                     (PageSaved
                        (Database
                           [PostRow (now_str (Clock (Date 2024 1 3) 12 0))
                              (py "MsH") (py "Other") (py "Hi") (py "A tip")]
                           [] (challenges sample_db)
                           (challenge_logs sample_db)
                           (daily_reflections sample_db))))
    by (vm_compute; reflexivity).
  split; [exact Hp|]. split; [exact Hr|]. split; [exact Hrun|].
  exact (proj1 (proj2 (proj1 (proj2
           (community_page_stores_filled (Clock (Date 2024 1 3) 12 0)
              sample_db (py " MsH") (py "Other") (py " Hi ") (py "A tip")
              1%Z (py "x") Hp Hr)) _ Hrun))).
Defined.

(** ** The checklist of the challenges page *)

Section Checklist.

Lemma setdefault_append_perm cat row by_cat :
  concat (List.map snd (setdefault_append cat row by_cat))
  ≡ₚ concat (List.map snd by_cat) ++ [row].
Proof.
  induction by_cat as [|[k items] rest IH]; cbn [setdefault_append].
  - reflexivity.
  - destruct (decide (k = cat)); cbn [List.map snd concat].
    + rewrite <- !app_assoc. apply Permutation_app_head.
      apply Permutation_app_comm.
    + rewrite IH, app_assoc. reflexivity.
Qed.

(** Grouping by category visits every challenge once. *)
Lemma group_by_category_perm (cs : list challenge_row) :
  concat (List.map snd (group_by_category cs)) ≡ₚ cs.
Proof.
  unfold group_by_category.
  assert (H : forall g,
             concat (List.map snd
                       (fold_left (fun by_cat row =>
                                     setdefault_append (ch_category row) row
                                       by_cat) cs g))
             ≡ₚ concat (List.map snd g) ++ cs).
  { induction cs as [|row cs IH]; intros g; cbn [fold_left].
    - rewrite app_nil_r. reflexivity.
    - rewrite IH, setdefault_append_perm, <- app_assoc. reflexivity. }
  apply (H []).
Qed.

Lemma fold_left_groups {A B : Type} (f : A -> B -> A)
    (gs : list (str * list B)) (a : A) :
  fold_left (fun acc group => fold_left f (snd group) acc) gs a
  = fold_left f (concat (List.map snd gs)) a.
Proof.
  revert a. induction gs as [|g gs IH]; intros a; cbn [fold_left List.map concat].
  - reflexivity.
  - rewrite IH, fold_left_app. reflexivity.
Qed.

(** Saving a list of checkboxes with distinct codes: every code of the
    list ends with the one row written for it. *)
Lemma save_checkboxes clk author log_date existing checkbox items :
  forall db,
    unique_logs db -> NoDup (List.map ch_code items) ->
    exists db',
      fold_left (save_checkbox clk author log_date existing checkbox) items
        (Returned db) = Returned db'
      /\ unique_logs db'
      /\ (forall row, row ∈ items ->
            logs_at db' log_date author (ch_code row)
            = [LogRow log_date author (ch_code row)
                 (if checkbox (ch_code row)
                       (negb (default 0%Z (existing !! ch_code row) =? 0)%Z)
                  then 1%Z else 0%Z) (now_str clk)])
      /\ (forall c, c ∉ List.map ch_code items ->
            logs_at db' log_date author c = logs_at db log_date author c).
Proof.
  induction items as [|x items IH]; intros db Hl Hnd.
  - exists db. split; [reflexivity|]. split; [exact Hl|].
    split; [intros row Hrow; inversion Hrow|reflexivity].
  - cbn [List.map] in Hnd. apply NoDup_cons in Hnd as [Hx Hnd].
    cbn [fold_left]. unfold save_checkbox at 2. cbn [mbind outcome_bind].
    cbv zeta.
    set (v := if checkbox (ch_code x)
                   (negb (default 0%Z (existing !! ch_code x) =? 0)%Z)
              then 1%Z else 0%Z).
    pose proof (set_challenge_completion_returns clk db author log_date
                  (ch_code x) v) as Hset.
    destruct (set_challenge_completion_unique clk db author log_date
                (ch_code x) v _ Hl Hset) as [Hl1 Hat1].
    rewrite Hset.
    destruct (IH _ Hl1 Hnd) as (db' & Hrun & Hl' & Hin & Hout).
    exists db'. split; [exact Hrun|]. split; [exact Hl'|]. split.
    + intros row Hrow. apply elem_of_cons in Hrow as [->|Hrow].
      * rewrite (Hout (ch_code x) Hx). exact Hat1.
      * apply Hin, Hrow.
    + intros c Hc. cbn [List.map] in Hc. apply not_elem_of_cons in Hc as [Hc1 Hc2].
      rewrite (Hout c Hc2).
      apply (logs_at_other_code clk db author log_date (ch_code x) v _ c Hset Hc1).
Qed.

End Checklist.

(** X12. One rendering of the checklist saves every checkbox: on a
    reachable database, [page_challenges] leaves, for the user and the
    chosen day, a row for each challenge of the catalogue, so that
    [fetch_user_logs] then maps each catalogue code to 1 if its checkbox
    was ticked and to 0 if it was not. *)
Theorem checklist_saves_every_checkbox clk db author log_date checkbox :
  reachable db ->
  exists existing db' m',
    fetch_user_logs (Available db) author log_date = Returned existing
    /\ page_challenges_checklist clk (Available db) author log_date checkbox
       = Returned db'
    /\ fetch_user_logs (Available db') author log_date = Returned m'
    /\ forall row, row ∈ default_challenges ->
         m' !! ch_code row
         = Some (if checkbox (ch_code row)
                      (negb (default 0%Z (existing !! ch_code row) =? 0)%Z)
                 then 1%Z else 0%Z).
Proof.
  intros Hreach. destruct (reachable_constraints db Hreach) as (Hl & _ & Hc).
  pose proof (reachable_catalogue db Hreach) as Hcat.
  destruct (fetch_user_logs_lookup db author log_date Hl) as (m & Hm & _).
  pose proof (group_by_category_perm (challenges db)) as Hperm.
  assert (Hnd : NoDup (List.map ch_code
                         (concat (List.map snd
                                    (group_by_category (challenges db)))))).
  { change (NoDup (ch_code <$> concat (List.map snd
                                          (group_by_category (challenges db))))).
    rewrite Hperm. exact Hc. }
  destruct (save_checkboxes clk author log_date m checkbox _ db Hl Hnd)
    as (db' & Hrun & Hl' & Hin & _).
  destruct (fetch_user_logs_lookup db' author log_date Hl') as (m' & Hm' & Hlk).
  exists m, db', m'. split; [exact Hm|]. split; [|split; [exact Hm'|]].
  - unfold page_challenges_checklist, fetch_challenges.
    cbn [get_conn mbind outcome_bind]. unfold mret, outcome_ret.
    cbn [mbind outcome_bind]. rewrite Hm. cbn [mbind outcome_bind].
    rewrite fold_left_groups. exact Hrun.
  - intros row Hrow. rewrite Hlk, (Hin row); [reflexivity|].
    rewrite Hperm, Hcat. exact Hrow.
Qed.

Lemma checklist_saves_every_checkbox_witness :
  reachable sample_db
  /\ exists existing db' m',
       fetch_user_logs (Available sample_db) sample_author (py "2024-01-04")
       = Returned existing
       /\ page_challenges_checklist (Clock (Date 2024 1 4) 8 0)
            (Available sample_db) sample_author (py "2024-01-04")
            (fun _ d => d) = Returned db'
       /\ fetch_user_logs (Available db') sample_author (py "2024-01-04")
          = Returned m'
       /\ forall row, row ∈ default_challenges ->
            m' !! ch_code row
            = Some (if negb (default 0%Z (existing !! ch_code row) =? 0)%Z
                    then 1%Z else 0%Z).
Proof.
  split; [exact sample_db_reachable|].
  exact (checklist_saves_every_checkbox (Clock (Date 2024 1 4) 8 0) sample_db
           sample_author (py "2024-01-04") (fun _ d => d) sample_db_reachable).
Defined.

(** ** The calendar of the dashboard *)

Section Calendar.

Lemma date_leb_rank (a b : date) :
  date_ok a = true -> date_ok b = true ->
  (date_leb a b = true <-> date_rank a <= date_rank b).
Proof.
  intros Ha Hb. apply date_ok_bounds in Ha, Hb.
  pose proof (days_in_month_bounds (year a) (month a)).
  pose proof (days_in_month_bounds (year b) (month b)).
  unfold date_leb, date_compare, date_rank.
  destruct (N.compare_spec (year a) (year b));
    [destruct (N.compare_spec (month a) (month b));
     [destruct (N.compare_spec (day a) (day b))|..]|..];
    split; intros; try discriminate; try reflexivity; lia.
Qed.

Lemma date_sub_one_day_rank (d d' : date) :
  date_ok d = true -> date_sub_one_day d = Returned d' ->
  date_ok d' = true /\ date_rank d' < date_rank d.
Proof.
  intros Hok Hsub. destruct (date_sub_one_day_ok d d' Hok Hsub) as [Hok' Hlt].
  split; [exact Hok'|]. unfold date_fuel in Hlt. unfold date_rank. lia.
Qed.

Lemma date_add_one_day_rank (d d' : date) :
  date_ok d = true -> date_add_one_day d = Returned d' ->
  date_ok d' = true /\ date_rank d < date_rank d' <= date_rank d + 4.
Proof.
  intros Hok Hadd. pose proof (date_ok_bounds d Hok) as (Hy & Hm & Hd).
  destruct d as [y m dd]. cbn [year month day] in *.
  pose proof (days_in_month_bounds y m) as Hb.
  pose proof (days_in_month_bounds y (m + 1)) as Hb1.
  unfold date_add_one_day in Hadd. cbn [year month day] in Hadd.
  destruct (N.ltb_spec dd (days_in_month y m)) as [Hdd|Hdd].
  - apply Returned_inj in Hadd. subst d'. split.
    + unfold date_ok. cbn [year month day].
      rewrite !andb_true_iff, !N.leb_le. lia.
    + unfold date_rank. cbn [year month day]. lia.
  - destruct (N.ltb_spec m 12) as [Hmm|Hmm].
    + apply Returned_inj in Hadd. subst d'. split.
      * unfold date_ok. cbn [year month day].
        rewrite !andb_true_iff, !N.leb_le. lia.
      * unfold date_rank. cbn [year month day]. lia.
    + destruct (N.ltb_spec y 9999) as [Hyy|Hyy]; [|discriminate Hadd].
      apply Returned_inj in Hadd. subst d'.
      assert (m = 12) by lia. subst m.
      replace (days_in_month y 12) with 31 in * by reflexivity. split.
      * unfold date_ok. cbn [year month day].
        replace (days_in_month (y + 1) 1) with 31 by reflexivity.
        rewrite !andb_true_iff, !N.leb_le. lia.
      * unfold date_rank. cbn [year month day]. lia.
Qed.

Lemma date_add_sub (d d' : date) :
  date_ok d = true -> date_sub_one_day d = Returned d' ->
  date_add_one_day d' = Returned d.
Proof.
  intros Hok Hsub. pose proof (date_ok_bounds d Hok) as (Hy & Hm & Hd).
  destruct d as [y m dd]. cbn [year month day] in *.
  unfold date_sub_one_day in Hsub. cbn [year month day] in Hsub.
  unfold date_add_one_day.
  destruct (N.ltb_spec 1 dd) as [Hdd|Hdd].
  - apply Returned_inj in Hsub. subst d'. cbn [year month day].
    destruct (N.ltb_spec (dd - 1) (days_in_month y m)); [|lia].
    do 2 f_equal. lia.
  - destruct (N.ltb_spec 1 m) as [Hmm|Hmm].
    + apply Returned_inj in Hsub. subst d'. cbn [year month day].
      rewrite N.ltb_irrefl.
      destruct (N.ltb_spec (m - 1) 12); [|lia]. f_equal. f_equal; lia.
    + destruct (N.ltb_spec 1 y) as [Hyy|Hyy]; [|discriminate Hsub].
      apply Returned_inj in Hsub. subst d'. cbn [year month day].
      replace (days_in_month (y - 1) 12) with 31 by reflexivity.
      rewrite !N.ltb_irrefl.
      destruct (N.ltb_spec (y - 1) 9999); [|lia]. f_equal. f_equal; lia.
Qed.

Lemma date_sub_add (d d' : date) :
  date_ok d = true -> date_add_one_day d = Returned d' ->
  date_sub_one_day d' = Returned d.
Proof.
  intros Hok Hadd. pose proof (date_ok_bounds d Hok) as (Hy & Hm & Hd).
  destruct d as [y m dd]. cbn [year month day] in *.
  unfold date_add_one_day in Hadd. cbn [year month day] in Hadd.
  unfold date_sub_one_day.
  destruct (N.ltb_spec dd (days_in_month y m)) as [Hdd|Hdd].
  - apply Returned_inj in Hadd. subst d'. cbn [year month day].
    destruct (N.ltb_spec 1 (dd + 1)); [|lia]. do 2 f_equal. lia.
  - destruct (N.ltb_spec m 12) as [Hmm|Hmm].
    + apply Returned_inj in Hadd. subst d'. cbn [year month day].
      rewrite N.ltb_irrefl. destruct (N.ltb_spec 1 (m + 1)); [|lia].
      replace (m + 1 - 1) with m by lia. f_equal. f_equal. lia.
    + destruct (N.ltb_spec y 9999) as [Hyy|Hyy]; [|discriminate Hadd].
      apply Returned_inj in Hadd. subst d'. cbn [year month day].
      rewrite !N.ltb_irrefl. destruct (N.ltb_spec 1 (y + 1)); [|lia].
      replace (y + 1 - 1) with y by lia.
      assert (m = 12) by lia. subst m.
      replace (days_in_month y 12) with 31 in * by reflexivity.
      f_equal. f_equal. lia.
Qed.

Lemma days_before_month_succ (y m : N) :
  1 <= m -> m < 12 ->
  days_before_month y (m + 1) = days_before_month y m + days_in_month y m.
Proof.
  intros H1 H2.
  assert (Hm : m = 1 \/ m = 2 \/ m = 3 \/ m = 4 \/ m = 5 \/ m = 6 \/ m = 7
               \/ m = 8 \/ m = 9 \/ m = 10 \/ m = 11) by lia.
  unfold days_before_month, days_in_month.
  repeat (destruct Hm as [->|Hm]; [destruct (is_leap y); reflexivity|]).
  subst m. destruct (is_leap y); reflexivity.
Qed.

Lemma days_before_year_succ (y : N) :
  1 <= y ->
  days_before_year (y + 1)
  = days_before_year y + 365 + (if is_leap y then 1 else 0).
Proof.
  intros Hy. unfold days_before_year, is_leap.
  replace (y + 1 - 1) with y by lia.
  destruct (N.eqb_spec (y mod 4) 0), (N.eqb_spec (y mod 100) 0),
    (N.eqb_spec (y mod 400) 0); cbn [andb orb negb];
    zify; Z.to_euclidean_division_equations; lia.
Qed.

Lemma toordinal_sub (d d' : date) :
  date_ok d = true -> date_sub_one_day d = Returned d' ->
  toordinal d = toordinal d' + 1.
Proof.
  intros Hok Hsub. pose proof (date_ok_bounds d Hok) as (Hy & Hm & Hd).
  destruct d as [y m dd]. cbn [year month day] in *.
  unfold date_sub_one_day in Hsub. cbn [year month day] in Hsub.
  unfold toordinal.
  destruct (N.ltb_spec 1 dd) as [Hdd|Hdd].
  - apply Returned_inj in Hsub. subst d'. cbn [year month day]. lia.
  - destruct (N.ltb_spec 1 m) as [Hmm|Hmm].
    + apply Returned_inj in Hsub. subst d'. cbn [year month day].
      pose proof (days_before_month_succ y (m - 1) ltac:(lia) ltac:(lia)) as E.
      replace (m - 1 + 1) with m in E by lia. lia.
    + destruct (N.ltb_spec 1 y) as [Hyy|Hyy]; [|discriminate Hsub].
      apply Returned_inj in Hsub. subst d'. cbn [year month day].
      pose proof (days_before_year_succ (y - 1) ltac:(lia)) as E.
      replace (y - 1 + 1) with y in E by lia.
      assert (m = 1) by lia. subst m.
      replace (days_before_month y 1) with 0 by reflexivity.
      replace (days_before_month (y - 1) 12)
        with (334 + (if is_leap (y - 1) then 1 else 0))
        by (unfold days_before_month; reflexivity).
      destruct (is_leap (y - 1)); lia.
Qed.

Lemma toordinal_min (d : date) (e : exn) :
  date_ok d = true -> date_sub_one_day d = Raised e -> toordinal d = 1.
Proof.
  intros Hok Hsub. pose proof (date_ok_bounds d Hok) as (Hy & Hm & Hd).
  destruct d as [y m dd]. cbn [year month day] in *.
  unfold date_sub_one_day in Hsub. cbn [year month day] in Hsub.
  destruct (N.ltb_spec 1 dd); [discriminate|].
  destruct (N.ltb_spec 1 m); [discriminate|].
  destruct (N.ltb_spec 1 y); [discriminate|].
  assert (y = 1) by lia. assert (m = 1) by lia. assert (dd = 1) by lia.
  subst. reflexivity.
Qed.

Lemma toordinal_positive (d : date) : date_ok d = true -> 1 <= toordinal d.
Proof.
  intros Hok. pose proof (date_ok_bounds d Hok) as (Hy & Hm & Hd).
  unfold toordinal. lia.
Qed.

Lemma date_add_days_add (n m : nat) (d : date) :
  date_add_days (n + m) d = (d' ← date_add_days n d; date_add_days m d').
Proof.
  revert d. induction n as [|n IH]; intros d; [reflexivity|].
  cbn [Nat.add date_add_days].
  destruct (date_add_one_day d) as [d1|e]; cbn [mbind outcome_bind];
    [apply IH|reflexivity].
Qed.

Lemma date_add_days_succ_r (n : nat) (d : date) :
  date_add_days (S n) d = (d' ← date_add_days n d; date_add_one_day d').
Proof.
  replace (S n) with (n + 1)%nat by lia. rewrite date_add_days_add.
  destruct (date_add_days n d) as [d1|e]; cbn [mbind outcome_bind];
    [|reflexivity].
  cbn [date_add_days]. destruct (date_add_one_day d1); reflexivity.
Qed.

(** Going back [n] days from a date that has [n] days before it. *)
Lemma date_sub_days_spec (n : nat) :
  forall d,
    date_ok d = true -> N.of_nat n < toordinal d ->
    exists d',
      date_sub_days n d = Returned d'
      /\ date_ok d' = true
      /\ toordinal d = toordinal d' + N.of_nat n
      /\ date_rank d' <= date_rank d
      /\ date_add_days n d' = Returned d.
Proof.
  induction n as [|n IH]; intros d Hok Hn.
  - exists d. cbn [date_sub_days date_add_days]. repeat split; auto; lia.
  - cbn [date_sub_days]. destruct (date_sub_one_day d) as [d1|e] eqn:Hsub.
    + destruct (date_sub_one_day_rank d d1 Hok Hsub) as [Hok1 Hlt].
      pose proof (toordinal_sub d d1 Hok Hsub) as Hord.
      destruct (IH d1 Hok1 ltac:(lia)) as (d' & Hrun & Hok' & Ho & Hr & Hadd).
      exists d'. cbn [mbind outcome_bind]. split; [exact Hrun|].
      split; [exact Hok'|]. split; [lia|]. split; [lia|].
      rewrite date_add_days_succ_r, Hadd. cbn [mbind outcome_bind].
      apply (date_add_sub d d1 Hok Hsub).
    + pose proof (toordinal_min d e Hok Hsub). lia.
Qed.

Lemma date_add_days_rank (n : nat) :
  forall d d',
    date_ok d = true -> date_add_days n d = Returned d' ->
    date_ok d' = true /\ date_rank d <= date_rank d'
    /\ toordinal d' = toordinal d + N.of_nat n.
Proof.
  induction n as [|n IH]; intros d d' Hok Hrun; cbn [date_add_days] in Hrun.
  - apply Returned_inj in Hrun. subst d'. repeat split; auto; lia.
  - destruct (date_add_one_day d) as [d1|e] eqn:Hadd;
      cbn [mbind outcome_bind] in Hrun; [|discriminate Hrun].
    destruct (date_add_one_day_rank d d1 Hok Hadd) as [Hok1 Hlt].
    pose proof (toordinal_sub d1 d Hok1 (date_sub_add d d1 Hok Hadd)) as Hord.
    destruct (IH d1 d' Hok1 Hrun) as (Hok' & Hr & Ho).
    split; [exact Hok'|]. split; lia.
Qed.

(** Adding days is possible as long as [date.max] is not passed. *)
Lemma date_add_days_returns (n : nat) :
  forall d,
    date_ok d = true ->
    date_rank d + 4 * N.of_nat n <= 372 * 9999 + 403 ->
    exists d', date_add_days n d = Returned d'.
Proof.
  induction n as [|n IH]; intros d Hok Hr; cbn [date_add_days].
  - exists d. reflexivity.
  - destruct (date_add_one_day d) as [d1|e] eqn:Hadd; cbn [mbind outcome_bind].
    + destruct (date_add_one_day_rank d d1 Hok Hadd) as [Hok1 Hlt].
      apply (IH d1 Hok1). lia.
    + exfalso. pose proof (date_ok_bounds d Hok) as (Hy & Hm & Hd).
      pose proof (days_in_month_bounds (year d) (month d)).
      unfold date_add_one_day in Hadd.
      destruct (N.ltb_spec (day d) (days_in_month (year d) (month d)));
        [discriminate|].
      destruct (N.ltb_spec (month d) 12); [discriminate|].
      destruct (N.ltb_spec (year d) 9999); [discriminate|].
      unfold date_rank in Hr. lia.
Qed.

Lemma weekday_bound (d : date) : weekday d <= 6.
Proof.
  unfold weekday. pose proof (N.mod_lt (toordinal d + 6) 7 ltac:(lia)). lia.
Qed.

(** The Monday of the week of a date. *)
Lemma week_start_spec (today : date) :
  date_ok today = true ->
  exists week_start,
    date_sub_days (N.to_nat (weekday today)) today = Returned week_start
    /\ date_ok week_start = true
    /\ weekday week_start = 0
    /\ date_rank week_start <= date_rank today
    /\ date_add_days (N.to_nat (weekday today)) week_start = Returned today.
Proof.
  intros Hok. pose proof (toordinal_positive today Hok) as Hpos.
  assert (Hk : N.of_nat (N.to_nat (weekday today)) < toordinal today).
  { rewrite N2Nat.id. unfold weekday.
    zify. Z.to_euclidean_division_equations. lia. }
  destruct (date_sub_days_spec _ today Hok Hk)
    as (ws & Hrun & Hok' & Ho & Hr & Hadd).
  exists ws. split; [exact Hrun|]. split; [exact Hok'|]. split; [|auto].
  rewrite N2Nat.id in Ho. unfold weekday in *.
  zify. Z.to_euclidean_division_equations. lia.
Qed.


Lemma week_end_spec (today week_start : date) :
  date_ok today = true -> year today < 9999 ->
  date_ok week_start = true -> weekday week_start = 0 ->
  date_rank week_start <= date_rank today ->
  date_add_days (N.to_nat (weekday today)) week_start = Returned today ->
  exists week_end,
    date_add_days 6 week_start = Returned week_end
    /\ date_ok week_end = true /\ weekday week_end = 6.
Proof.
  intros Hok Hy Hok' Hmon Hr Hadd.
  pose proof (date_ok_bounds today Hok) as (_ & Hm & Hd).
  pose proof (days_in_month_bounds (year today) (month today)).
  destruct (date_add_days_returns 6 week_start Hok') as [we Hwe].
  { unfold date_rank in *. lia. }
  destruct (date_add_days_rank 6 week_start we Hok' Hwe) as (Hokw & _ & Ho).
  exists we. split; [exact Hwe|]. split; [exact Hokw|].
  unfold weekday in *. rewrite Ho.
  zify. Z.to_euclidean_division_equations. lia.
Qed.

Lemma week_end_after_today (today week_start week_end : date) :
  date_ok today = true ->
  date_add_days (N.to_nat (weekday today)) week_start = Returned today ->
  date_add_days 6 week_start = Returned week_end ->
  date_ok week_end = true /\ date_rank today <= date_rank week_end.
Proof.
  intros Hok Hadd Hend. pose proof (weekday_bound today) as Hk.
  replace 6%nat
    with (N.to_nat (weekday today) + (6 - N.to_nat (weekday today)))%nat
    in Hend by lia.
  rewrite date_add_days_add, Hadd in Hend. cbn [mbind outcome_bind] in Hend.
  destruct (date_add_days_rank _ today week_end Hok Hend) as (H1 & H2 & _).
  auto.
Qed.

(** Days added move a date forward by little: the Monday of a week of a
    year after 1000 is not in a year before 1000. *)
Lemma date_add_days_rank_le (n : nat) :
  forall d d',
    date_ok d = true -> date_add_days n d = Returned d' ->
    date_rank d' <= date_rank d + 4 * N.of_nat n.
Proof.
  induction n as [|n IH]; intros d d' Hok Hrun; cbn [date_add_days] in Hrun.
  - apply Returned_inj in Hrun. subst d'. lia.
  - destruct (date_add_one_day d) as [d1|e] eqn:Hadd;
      cbn [mbind outcome_bind] in Hrun; [|discriminate Hrun].
    destruct (date_add_one_day_rank d d1 Hok Hadd) as [Hok1 Hlt].
    pose proof (IH d1 d' Hok1 Hrun). lia.
Qed.

Lemma week_start_year (today week_start : date) :
  date_ok week_start = true -> 1000 < year today ->
  date_add_days (N.to_nat (weekday today)) week_start = Returned today ->
  1000 <= year week_start.
Proof.
  intros Hok Hy Hadd. pose proof (weekday_bound today) as Hk.
  pose proof (date_add_days_rank_le _ _ _ Hok Hadd) as Hle.
  pose proof (date_ok_bounds _ Hok) as (_ & Hm & Hd).
  pose proof (days_in_month_bounds (year week_start) (month week_start)).
  unfold date_rank in Hle. lia.
Qed.

Lemma filter_length_le {A : Type} (P Q : A -> Prop)
    `{!forall x, Decision (P x)} `{!forall x, Decision (Q x)} (l : list A) :
  (forall x, P x -> Q x) -> (length (filter P l) <= length (filter Q l))%nat.
Proof.
  intros HPQ. induction l as [|x l IH]; [reflexivity|].
  rewrite !filter_cons.
  destruct (decide (P x)) as [HP|HP].
  - rewrite decide_True by auto. cbn [length]. lia.
  - destruct (decide (Q x)); cbn [length]; lia.
Qed.

End Calendar.

(** X13. The week of the dashboard: for every date, [today -
    timedelta(days=today.weekday())] is defined (it never goes below
    [date.min]), is a Monday and is not after today; and unless today is
    in the year 9999, [week_start + timedelta(days=6)] is defined, is a
    Sunday and is not before today. *)
Theorem dashboard_week (today : date) :
  date_ok today = true ->
  exists week_start,
    date_sub_days (N.to_nat (weekday today)) today = Returned week_start
    /\ date_ok week_start = true
    /\ weekday week_start = 0
    /\ date_leb week_start today = true
    /\ (year today < 9999 ->
        exists week_end,
          date_add_days 6 week_start = Returned week_end
          /\ date_ok week_end = true
          /\ weekday week_end = 6
          /\ date_leb today week_end = true).
Proof.
  intros Hok.
  destruct (week_start_spec today Hok) as (ws & Hrun & Hok' & Hmon & Hr & Hadd).
  exists ws. split; [exact Hrun|]. split; [exact Hok'|]. split; [exact Hmon|].
  split; [apply date_leb_rank; assumption|].
  intros Hy.
  destruct (week_end_spec today ws Hok Hy Hok' Hmon Hr Hadd)
    as (we & Hwe & Hokw & Hsun).
  exists we. split; [exact Hwe|]. split; [exact Hokw|]. split; [exact Hsun|].
  destruct (week_end_after_today today ws we Hok Hadd Hwe) as [_ Hle].
  apply date_leb_rank; assumption.
Qed.

Lemma dashboard_week_witness :
  date_ok (Date 2024 1 3) = true
  /\ exists week_start,
       date_sub_days (N.to_nat (weekday (Date 2024 1 3))) (Date 2024 1 3)
       = Returned week_start
       /\ date_ok week_start = true
       /\ weekday week_start = 0
       /\ date_leb week_start (Date 2024 1 3) = true
       /\ (year (Date 2024 1 3) < 9999 ->
           exists week_end,
             date_add_days 6 week_start = Returned week_end
             /\ date_ok week_end = true
             /\ weekday week_end = 6
             /\ date_leb (Date 2024 1 3) week_end = true).
Proof.
  split; [reflexivity|]. exact (dashboard_week (Date 2024 1 3) eq_refl).
Defined.

(** X14. "Today" does not exceed "This week": when the statistics block
    of the challenges page reads the same date of a year after 1000 each
    time it asks the clock for the week and for today, and the week's
    count and today's count read the same content of the database, the
    number of today's completions is at most the number of completions
    of the current week, because today lies between the Monday and the
    Sunday the block computes.  (Readings on both sides of a Sunday
    midnight give a week that does not hold today.) *)
Theorem today_within_week fuel clk_streak s_streak clk_week clk_weekday
    clk_today db author streak week_done today_done :
  date_ok (date_today clk_today) = true ->
  1000 < year (date_today clk_today) ->
  date_today clk_week = date_today clk_today ->
  date_today clk_weekday = date_today clk_today ->
  page_challenges_dashboard fuel clk_streak s_streak clk_week clk_weekday
    (Available db) clk_today (Available db) author
  = Some (Returned (streak, week_done, today_done)) ->
  (0 <= today_done <= week_done)%Z.
Proof.
  intros Hok Hyear Hweek Hweekday Hrun. unfold page_challenges_dashboard in Hrun.
  rewrite Hweek, Hweekday in Hrun.
  destruct (compute_streak fuel clk_streak s_streak author) as [[k|e]|];
    try discriminate Hrun.
  destruct (week_start_spec _ Hok) as (ws & Hws & Hok' & _ & Hr & Hadd).
  rewrite Hws in Hrun. cbn [mbind outcome_bind] in Hrun.
  destruct (date_add_days 6 ws) as [we|e] eqn:Hwe;
    cbn [mbind outcome_bind] in Hrun; [|discriminate Hrun].
  destruct (week_end_after_today _ ws we Hok Hadd Hwe) as [Hokw Hle].
  pose proof (week_start_year _ ws Hok' Hyear Hadd) as Hyws.
  assert (Hyt : 1000 <= year (date_today clk_today)) by lia.
  assert (Hywe : 1000 <= year we).
  { apply date_leb_rank in Hle; [|assumption|assumption].
    apply date_leb_year in Hle. lia. }
  unfold completed_count_in_range, daily_completion_total in Hrun.
  cbn [get_conn mbind outcome_bind] in Hrun. unfold mret, outcome_ret in Hrun.
  cbn [mbind outcome_bind] in Hrun. injection Hrun as _ <- <-.
  split; [lia|]. apply inj_le. apply filter_length_le.
  intros x (Ha & Hd & Hc). unfold today_str in Hd.
  rewrite Hd, !strftime_ymd_leb by assumption.
  repeat split; auto; apply date_leb_rank; assumption.
Qed.

Lemma today_within_week_witness :
  let clk := Clock (Date 2024 1 3) 8 0 in
  let clk' := Clock (Date 2024 1 3) 8 1 in
  date_ok (date_today clk') = true
  /\ 1000 < year (date_today clk')
  /\ date_today clk = date_today clk'
  /\ date_today clk' = date_today clk'
  /\ page_challenges_dashboard 10 clk (Available sample_db) clk clk'
       (Available sample_db) clk' (Available sample_db) sample_author
     = Some (Returned (3, 4, 2)%Z)
  /\ (0 <= 2 <= 4)%Z.
Proof.
  cbv zeta.
  assert (Hrun : page_challenges_dashboard 10 (Clock (Date 2024 1 3) 8 0)
                   (Available sample_db)
                   (Clock (Date 2024 1 3) 8 0) (Clock (Date 2024 1 3) 8 1)
                   (Available sample_db)
                   (Clock (Date 2024 1 3) 8 1) (Available sample_db)
                   sample_author
                 = Some (Returned (3, 4, 2)%Z)) by (vm_compute; reflexivity).
  assert (Hyear : 1000 < year (date_today (Clock (Date 2024 1 3) 8 1)))
    by (cbn [year date_today clock_date]; lia).
  split; [reflexivity|]. split; [exact Hyear|]. split; [reflexivity|].
  split; [reflexivity|]. split; [exact Hrun|].
  exact (today_within_week 10 (Clock (Date 2024 1 3) 8 0)
           (Available sample_db)
           (Clock (Date 2024 1 3) 8 0) (Clock (Date 2024 1 3) 8 1)
           (Clock (Date 2024 1 3) 8 1) sample_db sample_author 3%Z 4%Z 2%Z
           eq_refl Hyear eq_refl eq_refl Hrun).
Defined.

(** Across a Sunday midnight the block can show more for today than for
    the week: with the clock read on Sunday 2024-01-07 for the week and
    on Monday 2024-01-08 for today, one completion logged for the Monday
    gives "This week: 0" and "Today: 1". *)
Lemma today_outside_week_across_midnight :
  let sunday := Clock (Date 2024 1 7) 23 59 in
  let monday := Clock (Date 2024 1 8) 0 0 in
  let db := Database [] [] []
              [LogRow (py "2024-01-08") sample_author (py "MOVE_10") 1
                 (py "2024-01-08 00:00")] [] in
  page_challenges_dashboard 10 sunday (Available db) sunday sunday
    (Available db) monday (Available db) sample_author
  = Some (Returned (0, 0, 1)%Z).
Proof. vm_compute. reflexivity. Qed.

(** ** The nickname, pass after pass *)

Section Nickname.

Lemma nickname_space (c : N) :
  nickname_char c = true -> isspace c = true -> c = 32.
Proof.
  unfold nickname_char, isspace.
  rewrite !orb_true_iff, !andb_true_iff, !N.leb_le, !N.eqb_eq. lia.
Qed.

Lemma filter_all (f : N -> bool) (s : str) :
  forallb f s = true -> List.filter f s = s.
Proof.
  induction s as [|c s IH]; [reflexivity|]. cbn [forallb List.filter].
  intros H. apply andb_true_iff in H as [-> H]. rewrite (IH H). reflexivity.
Qed.

(** Collapsing changes nothing when every run is one U+0020 already. *)
Lemma sub_ws_runs_fixed (s : str) :
  forall in_run,
    forallb nickname_char s = true -> double_space s = false ->
    (in_run = true -> starts_with_space s = false) ->
    sub_ws_runs in_run s = s.
Proof.
  induction s as [|c s IH]; intros in_run Hnc Hds Hrun; [reflexivity|].
  cbn [forallb] in Hnc. apply andb_true_iff in Hnc as [Hc Hnc].
  assert (Hds' : double_space s = false).
  { destruct s as [|b s]; [reflexivity|]. cbn [double_space] in Hds.
    apply orb_false_iff in Hds as [_ Hds]. exact Hds. }
  cbn [sub_ws_runs]. destruct (isspace c) eqn:Hsp.
  - destruct in_run; [cbn [starts_with_space] in Hrun; rewrite Hrun in Hsp by reflexivity; discriminate|].
    rewrite (nickname_space c Hc Hsp). f_equal. apply IH; auto.
    intros _. destruct s as [|b s]; [reflexivity|].
    cbn [double_space] in Hds. apply orb_false_iff in Hds as [Hds _].
    rewrite Hsp in Hds. exact Hds.
  - f_equal. apply IH; auto. discriminate.
Qed.

(** A tidy nickname is left as it is. *)
Lemma clean_nickname_tidy (s : str) : tidy s -> clean_nickname (Some s) = s.
Proof.
  intros (Hnc & Hlen & Hb & He & Hds). unfold clean_nickname, sub_disallowed.
  cbn [or_empty]. rewrite (strip_fixed s Hb He).
  rewrite (sub_ws_runs_fixed s false Hnc Hds) by discriminate.
  rewrite (filter_all _ _ Hnc). apply firstn_all2. exact Hlen.
Qed.

Lemma sub_ws_runs_chars (s : str) :
  forall in_run,
    forallb nickname_char s = true ->
    forallb nickname_char (sub_ws_runs in_run s) = true.
Proof.
  induction s as [|c s IH]; intros in_run Hnc; [reflexivity|].
  cbn [forallb] in Hnc. apply andb_true_iff in Hnc as [Hc Hnc].
  cbn [sub_ws_runs]. destruct (isspace c); [destruct in_run|];
    cbn [forallb]; rewrite ?Hc, ?IH; auto.
Qed.

Lemma sub_ws_runs_length (s : str) :
  forall in_run, (length (sub_ws_runs in_run s) <= length s)%nat.
Proof.
  induction s as [|c s IH]; intros in_run; [reflexivity|].
  pose proof (IH true). pose proof (IH false).
  cbn [sub_ws_runs]. destruct (isspace c); [destruct in_run|];
    cbn [length]; lia.
Qed.

Lemma sub_ws_runs_starts (s : str) :
  starts_with_space (sub_ws_runs true s) = false
  /\ (starts_with_space s = false ->
      starts_with_space (sub_ws_runs false s) = false).
Proof.
  induction s as [|c s [IH1 IH2]]; [auto|]. cbn [sub_ws_runs starts_with_space].
  destruct (isspace c) eqn:Hsp; cbn [starts_with_space]; rewrite ?Hsp; auto.
Qed.

Lemma double_space_cons (a b : N) (t : str) :
  double_space (a :: b :: t) = (isspace a && isspace b) || double_space (b :: t).
Proof. reflexivity. Qed.

(** The result of collapsing never has two whitespace characters in a
    row. *)
Lemma sub_ws_runs_single (s : str) :
  forall in_run, double_space (sub_ws_runs in_run s) = false.
Proof.
  induction s as [|c s IH]; intros in_run; [reflexivity|].
  cbn [sub_ws_runs]. destruct (isspace c) eqn:Hsp.
  - destruct in_run; [apply IH|].
    pose proof (IH true) as Hd. pose proof (proj1 (sub_ws_runs_starts s)) as Hs.
    destruct (sub_ws_runs true s) as [|b t]; [reflexivity|].
    rewrite double_space_cons, Hd. cbn [starts_with_space] in Hs.
    rewrite Hs, andb_false_r. reflexivity.
  - pose proof (IH false) as Hd.
    destruct (sub_ws_runs false s) as [|b t]; [reflexivity|].
    rewrite double_space_cons, Hd, Hsp. reflexivity.
Qed.

Lemma ends_with_space_snoc (s : str) (c : N) :
  ends_with_space (s ++ [c]) = isspace c.
Proof. unfold ends_with_space. rewrite rev_unit. reflexivity. Qed.

Lemma ends_with_space_inv (s : str) :
  ends_with_space s = false ->
  s = [] \/ exists s' c, s = s' ++ [c] /\ isspace c = false.
Proof.
  intros He. destruct (rev s) as [|c r] eqn:Hrev.
  - left. apply (f_equal (@rev N)) in Hrev. rewrite rev_involutive in Hrev.
    exact Hrev.
  - right. exists (rev r), c. split.
    + apply (f_equal (@rev N)) in Hrev. rewrite rev_involutive in Hrev.
      exact Hrev.
    + unfold ends_with_space in He. rewrite Hrev in He. exact He.
Qed.

Lemma sub_ws_runs_snoc (s : str) (c : N) :
  isspace c = false ->
  forall in_run,
    sub_ws_runs in_run (s ++ [c]) = sub_ws_runs in_run s ++ [c].
Proof.
  intros Hc. induction s as [|x s IH]; intros in_run; cbn [app sub_ws_runs].
  - rewrite Hc. reflexivity.
  - destruct (isspace x); [destruct in_run|]; rewrite IH; reflexivity.
Qed.

Lemma sub_ws_runs_ends (s : str) (in_run : bool) :
  ends_with_space s = false ->
  ends_with_space (sub_ws_runs in_run s) = false.
Proof.
  intros He. destruct (ends_with_space_inv s He) as [->|(s' & c & -> & Hc)].
  - reflexivity.
  - rewrite (sub_ws_runs_snoc s' c Hc), ends_with_space_snoc. exact Hc.
Qed.

Lemma strip_chars (s : str) :
  forallb nickname_char s = true ->
  forallb nickname_char (strip s) = true /\ (length (strip s) <= length s)%nat.
Proof.
  intros Hnc. destruct (strip_split s) as (pre & suf & Heq & _).
  rewrite Heq in Hnc at 1. rewrite !forallb_app, !andb_true_iff in Hnc.
  split; [tauto|]. rewrite Heq at 2. rewrite !length_app. lia.
Qed.

(** Cleaning a string of allowed characters, 20 at most, gives a tidy
    nickname. *)
Lemma clean_nickname_allowed (y : str) :
  forallb nickname_char y = true -> (length y <= 20)%nat ->
  tidy (clean_nickname (Some y)).
Proof.
  intros Hnc Hlen. unfold clean_nickname, sub_disallowed. cbn [or_empty].
  destruct (strip_chars y Hnc) as [Hz Hzl].
  destruct (strip_split y) as (_ & _ & _ & _ & _ & Hb & He).
  pose proof (sub_ws_runs_chars (strip y) false Hz) as Hw.
  pose proof (sub_ws_runs_length (strip y) false) as Hwl.
  rewrite (filter_all _ _ Hw), firstn_all2 by lia.
  repeat split; auto.
  - lia.
  - apply sub_ws_runs_starts, Hb.
  - apply sub_ws_runs_ends, He.
  - apply sub_ws_runs_single.
Qed.

End Nickname.

(** X15. The nickname settles after two passes: for every input, the
    result of cleaning twice is tidy (allowed characters only, at most
    20, no space at either end, no two spaces in a row), and cleaning a
    tidy nickname returns it unchanged, so a third pass and every later
    one change nothing. *)
Theorem clean_nickname_settles (n : option str) :
  let once := clean_nickname n in
  let twice := clean_nickname (Some once) in
  tidy twice
  /\ clean_nickname (Some twice) = twice
  /\ forall s, tidy s -> clean_nickname (Some s) = s.
Proof.
  cbv zeta.
  assert (Hm : matches_nickname_pattern (clean_nickname n) = true).
  { unfold matches_nickname_pattern, clean_nickname, sub_disallowed.
    apply andb_true_iff. split.
    - apply forallb_firstn, forallb_filter_same.
    - apply Nat.leb_le. apply firstn_le_length. }
  unfold matches_nickname_pattern in Hm.
  apply andb_true_iff in Hm as [Hnc Hlen]. apply Nat.leb_le in Hlen.
  pose proof (clean_nickname_allowed _ Hnc Hlen) as Ht.
  split; [exact Ht|]. split; [apply clean_nickname_tidy, Ht|].
  apply clean_nickname_tidy.
Qed.

Lemma clean_nickname_settles_witness :
  tidy (py "Ms H") /\ clean_nickname (Some (py "Ms H")) = py "Ms H".
Proof.
  assert (Ht : tidy (py "Ms H"))
    by (repeat split; try reflexivity; vm_compute; lia).
  split; [exact Ht|].
  exact (proj2 (proj2 (clean_nickname_settles None)) (py "Ms H") Ht).
Defined.

(** ** The wellbeing check-in *)

Section Wellbeing.

#[local] Open Scope Z_scope.

Lemma sliders_checked :
  forallb (fun w => forallb (fun e => forallb (fun s => forallb (fun p =>
    forallb (fun b => wellbeing_check w e s p b) sliders) sliders) sliders)
    sliders) sliders = true.
Proof. vm_compute. reflexivity. Qed.


Lemma slider_in (x : Z) : 1 <= x <= 10 -> In x sliders.
Proof.
  intros H. unfold sliders. cbn [In].
  assert (x = 1 \/ x = 2 \/ x = 3 \/ x = 4 \/ x = 5 \/ x = 6 \/ x = 7 \/ x = 8
          \/ x = 9 \/ x = 10) by lia.
  intuition.
Qed.

(** X16. The wellbeing score on the sliders (1 to 10 each): the score
    returned is the exact weighted sum to one decimal, and the level is
    the level of the exact sum (Red from 32, Amber from 20), except that
    a sum of exactly 32.0 or 20.0 may get the level below, because the
    floating-point sum can fall just short of the threshold: the sliders
    (1, 3, 5, 9, 4) return Green with the score 20.0. *)
Theorem wellbeing_on_sliders w e s p b :
  1 <= w <= 10 -> 1 <= e <= 10 -> 1 <= s <= 10 -> 1 <= p <= 10 ->
  1 <= b <= 10 ->
  (exists l score,
      wellbeing_assessment w e s p b = Returned (l, score)
      /\ (score =? float_of_Z (wellbeing_tenths w e s p b) / 10)%float = true
      /\ match l with
         | Red => 320 <= wellbeing_tenths w e s p b
         | Amber => 200 <= wellbeing_tenths w e s p b <= 320
         | Green => wellbeing_tenths w e s p b <= 200
         end)
  /\ wellbeing_assessment 1 3 5 9 4 = Returned (Green, 20%float).
Proof.
  intros Hw He Hs Hp Hb. split; [|vm_compute; reflexivity].
  pose proof sliders_checked as H.
  rewrite forallb_forall in H. specialize (H w (slider_in w Hw)).
  rewrite forallb_forall in H. specialize (H e (slider_in e He)).
  rewrite forallb_forall in H. specialize (H s (slider_in s Hs)).
  rewrite forallb_forall in H. specialize (H p (slider_in p Hp)).
  rewrite forallb_forall in H. specialize (H b (slider_in b Hb)).
  unfold wellbeing_check in H.
  destruct (wellbeing_assessment w e s p b) as [[l score]|]; [|discriminate H].
  apply andb_true_iff in H as [Hscore Hl]. exists l, score.
  split; [reflexivity|]. split; [exact Hscore|].
  destruct l; cbn [level_within] in Hl;
    rewrite ?andb_true_iff, ?Z.leb_le in Hl; exact Hl.
Qed.

Lemma wellbeing_on_sliders_witness :
  (1 <= 1 <= 10 /\ 1 <= 6 <= 10 /\ 1 <= 9 <= 10 /\ 1 <= 10 <= 10
   /\ 1 <= 9 <= 10)
  /\ exists l score,
       wellbeing_assessment 1 6 9 10 9 = Returned (l, score)
       /\ (score =? float_of_Z (wellbeing_tenths 1 6 9 10 9) / 10)%float
          = true
       /\ match l with
          | Red => 320 <= wellbeing_tenths 1 6 9 10 9
          | Amber => 200 <= wellbeing_tenths 1 6 9 10 9 <= 320
          | Green => wellbeing_tenths 1 6 9 10 9 <= 200
          end.
Proof.
  split; [lia|].
  exact (proj1 (wellbeing_on_sliders 1 6 9 10 9 ltac:(lia) ltac:(lia)
                  ltac:(lia) ltac:(lia) ltac:(lia))).
Defined.

End Wellbeing.

(** ** More on the streak and the range count *)

Section StreakGrowth.

(** The counter only carries what was counted so far. *)
Lemma streak_loop_acc (dates : gset str) (fuel : nat) :
  forall d acc,
    streak_loop fuel dates d (acc + 1)
    = match streak_loop fuel dates d acc with
      | Some (Returned k) => Some (Returned (k + 1)%Z)
      | r => r
      end.
Proof.
  induction fuel as [|fuel IH]; intros d acc; [reflexivity|].
  cbn [streak_loop]. destruct (decide (strftime_ymd d ∈ dates)); [|reflexivity].
  destruct (date_sub_one_day d) as [d'|ex]; [apply IH|reflexivity].
Qed.

Lemma str_leb_trans (a b c : str) :
  str_leb a b = true -> str_leb b c = true -> str_leb a c = true.
Proof.
  unfold str_leb. revert b c.
  induction a as [|x a IH]; intros [|y b] [|z c]; cbn [str_compare];
    try reflexivity; try discriminate.
  destruct (N.compare_spec x y) as [->|Hxy|Hxy]; try discriminate.
  - destruct (N.compare_spec y z) as [->|Hyz|Hyz]; try discriminate.
    + apply IH.
    + reflexivity.
  - intros _. destruct (N.compare_spec y z) as [->|Hyz|Hyz]; try discriminate.
    + intros _. destruct (N.compare_spec x z); [lia|reflexivity|lia].
    + intros _. destruct (N.compare_spec x z); [lia|reflexivity|lia].
Qed.

End StreakGrowth.

(** X17. The streak grows by one per completed day: when the user has a
    completion today, [compute_streak] run today returns one more than it
    returns when run yesterday on the same rows (and raises if that run
    raises). *)
Theorem streak_grows_by_one fuel clk clk' db author :
  date_ok (date_today clk) = true ->
  (date_fuel (date_today clk) <= fuel)%nat ->
  date_sub_one_day (date_today clk) = Returned (date_today clk') ->
  completed_on db author (date_today clk) ->
  compute_streak fuel clk' (Available db) author <> None
  /\ compute_streak (S fuel) clk (Available db) author
     = match compute_streak fuel clk' (Available db) author with
       | Some (Returned k) => Some (Returned (k + 1)%Z)
       | r => r
       end.
Proof.
  intros Hok Hfuel Hsub Hdone.
  destruct (date_sub_one_day_ok _ _ Hok Hsub) as [Hok' Hlt]. split.
  - destruct (compute_streak_walk fuel clk' db author Hok' ltac:(lia))
      as [(k & -> & _)|(-> & _)]; discriminate.
  - unfold compute_streak. cbn [get_conn]. cbv zeta. cbn [streak_loop].
    rewrite decide_True by (apply completed_dates_spec, Hdone).
    rewrite Hsub. apply (streak_loop_acc _ fuel (date_today clk') 0%Z).
Qed.

Lemma streak_grows_by_one_witness :
  let clk := Clock (Date 2024 1 3) 8 0 in
  let clk' := Clock (Date 2024 1 2) 23 0 in
  let fuel := date_fuel (date_today clk) in
  date_ok (date_today clk) = true
  /\ (date_fuel (date_today clk) <= fuel)%nat
  /\ date_sub_one_day (date_today clk) = Returned (date_today clk')
  /\ completed_on sample_db sample_author (date_today clk)
  /\ compute_streak (S fuel) clk (Available sample_db) sample_author
     = match compute_streak fuel clk' (Available sample_db) sample_author with
       | Some (Returned k) => Some (Returned (k + 1)%Z)
       | r => r
       end.
Proof.
  cbv zeta.
  assert (Hdone : completed_on sample_db sample_author
                    (date_today (Clock (Date 2024 1 3) 8 0))).
  { exists (LogRow (py "2024-01-03") sample_author (py "MOVE_10") 1
              (py "2024-01-03 09:05")).
    split; [|vm_compute; auto]. apply list_elem_of_In. vm_compute. auto 6. }
  split; [reflexivity|]. split; [apply Nat.le_refl|].
  split; [reflexivity|]. split; [exact Hdone|].
  exact (proj2 (streak_grows_by_one _ (Clock (Date 2024 1 3) 8 0)
                  (Clock (Date 2024 1 2) 23 0) sample_db sample_author
                  eq_refl (Nat.le_refl _) eq_refl Hdone)).
Defined.

(** X18. A range given the wrong way round is empty: when [start_date]
    is after [end_date], both of years from 1000 on,
    [completed_count_in_range] returns 0, whatever the table holds (no
    error is raised). *)
Theorem reversed_range_counts_zero db author start_date end_date :
  date_ok start_date = true -> date_ok end_date = true ->
  1000 <= year start_date -> 1000 <= year end_date ->
  date_leb start_date end_date = false ->
  completed_count_in_range (Available db) author start_date end_date
  = Returned 0%Z.
Proof.
  intros Hs He Hys Hye Hrev. unfold completed_count_in_range. run_conn.
  rewrite <- (strftime_ymd_leb _ _ Hs He Hys Hye) in Hrev.
  replace (filter _ (challenge_logs db)) with ([] : list log_row);
    [reflexivity|].
  symmetry. induction (challenge_logs db) as [|x t IH]; [reflexivity|].
  rewrite filter_cons, <- IH, decide_False; [reflexivity|].
  intros (_ & _ & H1 & H2).
  rewrite (str_leb_trans _ _ _ H1 H2) in Hrev. discriminate Hrev.
Qed.

Lemma reversed_range_counts_zero_witness :
  date_ok (Date 2024 1 7) = true /\ date_ok (Date 2024 1 1) = true
  /\ 1000 <= year (Date 2024 1 7) /\ 1000 <= year (Date 2024 1 1)
  /\ date_leb (Date 2024 1 7) (Date 2024 1 1) = false
  /\ completed_count_in_range (Available sample_db) sample_author
       (Date 2024 1 7) (Date 2024 1 1) = Returned 0%Z.
Proof.
  assert (Hyear : 1000 <= 2024) by lia.
  split; [reflexivity|]. split; [reflexivity|].
  split; [exact Hyear|]. split; [exact Hyear|]. split; [reflexivity|].
  exact (reversed_range_counts_zero sample_db sample_author (Date 2024 1 7)
           (Date 2024 1 1) eq_refl eq_refl Hyear Hyear eq_refl).
Defined.

(** With an end of range before year 1000 the order of the texts decides:
    from 1000-01-01 back to 999-12-31 the function counts a row dated
    2024-01-03, whose text lies between ['1000-01-01'] and
    ['999-12-31']. *)
Lemma reversed_range_short_year :
  date_leb (Date 1000 1 1) (Date 999 12 31) = false
  /\ completed_count_in_range
       (Available (Database [] [] []
                     [LogRow (py "2024-01-03") sample_author (py "MOVE_10") 1
                        (py "2024-01-03 09:05")] []))
       sample_author (Date 1000 1 1) (Date 999 12 31) = Returned 1%Z.
Proof. split; vm_compute; reflexivity. Qed.
